(** * release-tools: the changelog entry engine, embedded and verified

    A shallow embedding of [release_tools/changelog.py] and of the
    [GitHandler] of [release_tools/repo.py].

    Conventions of the embedding.
    - A Python [str] is a [string]; the embedding covers ASCII text, the
      characters of code 0..127.  On these, [str.lower], [str.upper],
      [str.strip], [repr] and [int] are modelled exactly; the characters
      128..255 of [ascii] are caseless, printable symbols here.
    - A function that may raise returns a [result]: [Ok v] or [Raise e]
      with the exception [e] as the code constructs it.
    - The file system, the standard output and the log of file system
      calls are the [world] threaded through the monad [M].  The file
      system is a finite map from paths to nodes, a path being the string
      handed to [open]; a file or directory is created only below
      directories that are there.  Permissions, limits on the length of
      names and other failures of the operating system are not modelled.
    - The collaborators that are not in the repository are parameters of
      the functions that call them: the process run by
      [GitHandler._exec], PyYAML's emitter of string scalars, the
      editor behind [click.edit] and the answer to [click.confirm]. *)

From Stdlib Require Import ZArith Ascii String DecimalString Lia.
From stdpp Require Import base option list gmap strings.

Local Open Scope Z_scope.

(** Appending to a string that starts with a known character computes. *)
Local Arguments String.append !_ _ / : simpl nomatch.

(** ** Python strings *)

Module PyStr.

Definition code (c : ascii) : Z := Z.of_N (N_of_ascii c).

Definition is_upper_char (c : ascii) : bool :=
  (65 <=? code c) && (code c <=? 90).

Definition is_lower_char (c : ascii) : bool :=
  (97 <=? code c) && (code c <=? 122).

Definition lower_char (c : ascii) : ascii :=
  if is_upper_char c then ascii_of_N (Z.to_N (code c + 32)) else c.

Definition upper_char (c : ascii) : ascii :=
  if is_lower_char c then ascii_of_N (Z.to_N (code c - 32)) else c.

Fixpoint map_chars (f : ascii -> ascii) (s : string) : string :=
  match s with
  | EmptyString => EmptyString
  | String c r => String (f c) (map_chars f r)
  end.

(** [s.lower()] and [s.upper()] *)
Definition lower (s : string) : string := map_chars lower_char s.
Definition upper (s : string) : string := map_chars upper_char s.

(** [old in chars], for a one-character [old] *)
Fixpoint mem (c : ascii) (chars : string) : bool :=
  match chars with
  | EmptyString => false
  | String d r => Ascii.eqb c d || mem c r
  end.

(** [s.replace(old, new)] at one-character [old] and [new] *)
Definition replace (old new : ascii) (s : string) : string :=
  map_chars (fun c => if Ascii.eqb c old then new else c) s.

Definition is_empty (s : string) : bool :=
  match s with EmptyString => true | _ => false end.

(** The one-character strings LF, CR and TAB. *)
Definition LF : string := String "010" EmptyString.
Definition CR : string := String "013" EmptyString.
Definition TAB : string := String "009" EmptyString.

(** [s.lstrip(chars)], [s.rstrip(chars)], [s.strip(chars)] *)
Fixpoint lstrip (chars s : string) : string :=
  match s with
  | EmptyString => EmptyString
  | String c r => if mem c chars then lstrip chars r else s
  end.

Fixpoint rstrip (chars s : string) : string :=
  match s with
  | EmptyString => EmptyString
  | String c r =>
      let r' := rstrip chars r in
      if is_empty r' && mem c chars then EmptyString else String c r'
  end.

Definition strip (chars s : string) : string :=
  rstrip chars (lstrip chars s).

(** [s[0:n]] *)
Definition slice_to (n : nat) (s : string) : string := String.substring 0 n s.

Definition len (s : string) : nat := String.length s.

(** [c.isspace()] on ASCII: TAB, LF, VT, FF, CR, FS, GS, RS, US, SPACE *)
Definition isspace_char (c : ascii) : bool :=
  ((9 <=? code c) && (code c <=? 13))
  || ((28 <=? code c) && (code c <=? 32)).

Fixpoint all_chars (p : ascii -> bool) (s : string) : bool :=
  match s with
  | EmptyString => true
  | String c r => p c && all_chars p r
  end.

(** [s.isspace()]: non-empty and every character is whitespace *)
Definition isspace (s : string) : bool :=
  negb (is_empty s) && all_chars isspace_char s.

(** *** [int(s)] for a [str] argument, base 10

    Blanks are dropped at both ends, one sign is accepted, then come
    decimal digits, with single underscores allowed between digits.
    [None] stands for [ValueError].  The cap that recent interpreters
    put on the number of digits (4300 by default) is not modelled. *)

Definition is_digit_char (c : ascii) : bool :=
  (48 <=? code c) && (code c <=? 57).

Definition digit_val (c : ascii) : Z := code c - 48.

(** [digits_go acc prev_us s]: the digits seen so far are worth [acc];
    [prev_us] tells that the previous character was an underscore. *)
Fixpoint digits_go (acc : Z) (prev_us : bool) (s : string) : option Z :=
  match s with
  | EmptyString => if prev_us then None else Some acc
  | String c r =>
      if is_digit_char c then digits_go (10 * acc + digit_val c) false r
      else if Ascii.eqb c "_" then
        if prev_us then None else digits_go acc true r
      else None
  end.

Definition parse_digits (s : string) : option Z :=
  match s with
  | EmptyString => None
  | String c _ => if is_digit_char c then digits_go 0 false s else None
  end.

(** The blanks [int] skips in an ASCII string: TAB, LF, VT, FF, CR, SPACE. *)
Definition int_blanks : string :=
  String "009" (String "010" (String "011" (String "012" (String "013" " ")))).

Definition int (s : string) : option Z :=
  match strip int_blanks s with
  | String "+" r => parse_digits r
  | String "-" r => Z.opp <$> parse_digits r
  | t => parse_digits t
  end.

(** [str(n)] for a natural number *)
Definition str_of_nat (n : nat) : string :=
  NilZero.string_of_uint (Nat.to_uint n).

(** *** [repr(s)] *)

Definition hex_digit (n : Z) : ascii :=
  if n <? 10 then ascii_of_N (Z.to_N (48 + n))
  else ascii_of_N (Z.to_N (87 + n)).

Definition repr_char (quote : ascii) (c : ascii) : string :=
  if Ascii.eqb c quote || Ascii.eqb c "\" then String "\" (String c "")
  else if Ascii.eqb c "009" then "\t"
  else if Ascii.eqb c "010" then "\n"
  else if Ascii.eqb c "013" then "\r"
  else if (code c <? 32) || (code c =? 127) then
    String "\" (String "x" (String (hex_digit (code c / 16))
                              (String (hex_digit (code c mod 16)) "")))
  else String c "".

Fixpoint repr_body (quote : ascii) (s : string) : string :=
  match s with
  | EmptyString => EmptyString
  | String c r => repr_char quote c +:+ repr_body quote r
  end.

(** Double quotes are chosen only when the string holds a single quote
    and no double quote. *)
Definition repr (s : string) : string :=
  let quote : ascii :=
    if mem "'" s && negb (mem "034" s) then "034"%char else "'"%char in
  String quote (repr_body quote s) +:+ String quote "".

(** [", ".join(l)] and [repr(l)] for a list of [str] *)
Fixpoint join (sep : string) (l : list string) : string :=
  match l with
  | [] => ""
  | [x] => x
  | x :: r => x +:+ sep +:+ join sep r
  end.

Definition repr_list (l : list string) : string :=
  "[" +:+ join ", " (repr <$> l) +:+ "]".

End PyStr.

(** ** [os.path] on POSIX *)

Module PosixPath.

(** [os.path.join(a, b)] *)
Fixpoint ends_with_sep (a : string) : bool :=
  match a with
  | EmptyString => false
  | String c EmptyString => Ascii.eqb c "/"
  | String _ r => ends_with_sep r
  end.

Definition join (a b : string) : string :=
  match b with
  | String "/" _ => b
  | _ =>
      if PyStr.is_empty a || ends_with_sep a then a +:+ b
      else a +:+ "/" +:+ b
  end.

Definition join3 (a b c : string) : string := join (join a b) c.

(** [os.path.basename(p)]: what follows the last separator *)
Fixpoint basename (p : string) : string :=
  match p with
  | EmptyString => EmptyString
  | String c r =>
      if PyStr.mem "/" r then basename r
      else if Ascii.eqb c "/" then r else p
  end.

End PosixPath.

(** ** Exceptions and results *)

Inductive exn : Type :=
  | BadParameter (msg : string)        (* click.BadParameter *)
  | ClickException (msg : string)      (* click.ClickException *)
  | UnboundLocalError (name : string)  (* read of an unassigned local *)
  | IsADirectoryError (path : string)
  | FileExistsError (path : string)
  | FileNotFoundError (path : string)
  | NotADirectoryError (path : string)
  | ValueError (msg : string).

Inductive result (A : Type) : Type :=
  | Ok (a : A)
  | Raise (e : exn).

Arguments Ok {A} a.
Arguments Raise {A} e.

(** ** Constants of changelog.py *)

Definition YAML_FILE_EXTENSION : string := ".yml".

(** GNU tar has a 99 character limit *)
Definition MAX_FILENAME_LENGTH : nat := 99 - PyStr.len YAML_FILE_EXTENSION.

(** ** The world: files, the log of file system calls, standard output *)

Inductive node : Type :=
  | File (content : string)
  | Dir.

Inductive open_mode : Type :=
  | ModeW   (* 'w': create or truncate *)
  | ModeX.  (* 'x': create, fail if the path exists *)

Inductive fs_call : Type :=
  | OpenCall (path : string) (mode : open_mode)
  | WriteCall (path : string) (data : string).

Record world : Type := World {
  files : gmap string node;
  fs_calls : list fs_call;
  stdout : list string
}.

Definition M (A : Type) : Type := world -> result A * world.

Definition ret {A} (a : A) : M A := fun w => (Ok a, w).

Definition raise {A} (e : exn) : M A := fun w => (Raise e, w).

Definition bind {A B} (m : M A) (k : A -> M B) : M B :=
  fun w =>
    match m w with
    | (Ok a, w') => k a w'
    | (Raise e, w') => (Raise e, w')
    end.

(** [try: body / except ...: handler / else: orelse] *)
Definition try_except_else {A B} (body : M A) (handler : exn -> M B)
    (orelse : A -> M B) : M B :=
  fun w =>
    match body w with
    | (Ok a, w') => orelse a w'
    | (Raise e, w') => handler e w'
    end.

Notation "'do' x <- m ; k" := (bind m (fun x => k))
  (at level 10, x name, m at level 100, k at level 200).
Notation "'run' m ; k" := (bind m (fun _ => k))
  (at level 10, m at level 100, k at level 200).

Definition log_call (c : fs_call) : M unit :=
  fun w => (Ok tt, World (files w) (fs_calls w ++ [c]) (stdout w)).

(** [click.echo(msg)] *)
Definition echo (msg : string) : M unit :=
  fun w => (Ok tt, World (files w) (fs_calls w) (stdout w ++ [msg +:+ PyStr.LF])).

(** The directories above a path: its prefixes that end before a
    separator, the shortest first.  The empty prefix (the root of an
    absolute path, the working directory of a relative one) and a prefix
    that ends with a separator (a separator written twice) name no
    directory of their own and are left out. *)
Fixpoint ancestors_from (pre p : string) : list string :=
  match p with
  | EmptyString => []
  | String c r =>
      let rest := ancestors_from (pre +:+ String c EmptyString) r in
      if Ascii.eqb c "/" && negb (PyStr.is_empty pre)
         && negb (PosixPath.ends_with_sep pre)
      then pre :: rest else rest
  end.

Definition ancestors (p : string) : list string := ancestors_from EmptyString p.

(** The walk from the top to a path: the first directory above it that is
    missing gives [FileNotFoundError], the first that is a file gives
    [NotADirectoryError]. *)
Fixpoint walk (fs : gmap string node) (path : string) (above : list string)
    : option exn :=
  match above with
  | [] => None
  | a :: r =>
      match fs !! a with
      | Some Dir => walk fs path r
      | Some (File _) => Some (NotADirectoryError path)
      | None => Some (FileNotFoundError path)
      end
  end.

(** Why a path that does not exist cannot be created, if it cannot: a
    NUL character in it, the empty path, or the walk to it. *)
Definition creation_error (fs : gmap string node) (path : string) : option exn :=
  if PyStr.mem "000" path then Some (ValueError "embedded null byte")
  else if PyStr.is_empty path then Some (FileNotFoundError path)
  else walk fs path (ancestors path).

(** [open(path, mode)]: the handle is the path.  Mode 'x' refuses a path
    that exists, whatever is there; mode 'w' refuses a directory and
    empties a file.  A path that does not exist is created as an empty
    file when the directories above it are there. *)
Definition py_open (path : string) (mode : open_mode) : M string :=
  run log_call (OpenCall path mode);
  fun w =>
    let opened :=
      World (<[path := File EmptyString]> (files w)) (fs_calls w) (stdout w) in
    match files w !! path with
    | Some n =>
        match mode, n with
        | ModeX, _ => (Raise (FileExistsError path), w)
        | ModeW, Dir => (Raise (IsADirectoryError path), w)
        | ModeW, File _ => (Ok path, opened)
        end
    | None =>
        match creation_error (files w) path with
        | Some e => (Raise e, w)
        | None => (Ok path, opened)
        end
    end.

(** [f.write(data)] on a handle that [py_open] returned *)
Definition f_write (f : string) (data : string) : M unit :=
  run log_call (WriteCall f data);
  fun w =>
    let old := match files w !! f with Some (File c) => c | _ => EmptyString end in
    (Ok tt, World (<[f := File (old +:+ data)]> (files w)) (fs_calls w) (stdout w)).

(** ** GitHandler *)

Definition cmd_show_toplevel : list string :=
  ["git"; "rev-parse"; "--show-toplevel"].

Definition cmd_show_superproject : list string :=
  ["git"; "rev-parse"; "--show-superproject-working-tree"].

(** changelog.py.  [exec cwd cmd] is [GitHandler._exec]: the decoded
    standard output of the command run in directory [cwd] under [gitenv]. *)
Module GitHandler.
Section WithProcess.
Variable exec : option string -> list string -> string.

Definition _get_root_path : string :=
  PyStr.strip PyStr.LF (exec None cmd_show_toplevel).

Definition _get_submodule_root_path : string :=
  PyStr.strip PyStr.LF (exec None cmd_show_superproject).

(** [basepath] is assigned only in the branch of the empty [path_]. *)
Definition root_path : result string :=
  let path_ := _get_submodule_root_path in
  if PyStr.is_empty path_ then
    let basepath := _get_root_path in
    Ok basepath
  else Raise (UnboundLocalError "basepath").

End WithProcess.
End GitHandler.

(** repo.py: the same class with a working directory. *)
Module Repo.
Section WithProcess.
Variable exec : option string -> list string -> string.
Variable dirpath : string.

Definition _get_root_path : string :=
  PyStr.strip PyStr.LF (exec (Some dirpath) cmd_show_toplevel).

Definition _get_submodule_root_path : string :=
  PyStr.strip PyStr.LF (exec (Some dirpath) cmd_show_superproject).

Definition root_path : result string :=
  let path_ := _get_submodule_root_path in
  if PyStr.is_empty path_ then
    let basepath := _get_root_path in
    Ok basepath
  else Raise (UnboundLocalError "basepath").

Definition find_file (filename : string) : option string :=
  let filepath :=
    PyStr.strip PyStr.LF (exec (Some dirpath) ["git"; "ls-files"; filename]) in
  if PyStr.is_empty filepath then None
  else Some (PyStr.strip PyStr.LF filepath).

End WithProcess.
End Repo.

(** ** CategoryChange *)

Module CategoryChange.

Inductive t : Type :=
  | ADDED | FIXED | CHANGED | DEPRECATED
  | REMOVED | SECURITY | PERFORMANCE | OTHER.

Definition name (m : t) : string :=
  match m with
  | ADDED => "ADDED" | FIXED => "FIXED" | CHANGED => "CHANGED"
  | DEPRECATED => "DEPRECATED" | REMOVED => "REMOVED"
  | SECURITY => "SECURITY" | PERFORMANCE => "PERFORMANCE"
  | OTHER => "OTHER"
  end.

Definition value (m : t) : Z :=
  match m with
  | ADDED => 1 | FIXED => 2 | CHANGED => 3 | DEPRECATED => 4
  | REMOVED => 5 | SECURITY => 6 | PERFORMANCE => 7 | OTHER => 8
  end.

Definition category (m : t) : string :=
  match m with
  | ADDED => "added" | FIXED => "fixed" | CHANGED => "changed"
  | DEPRECATED => "deprecated" | REMOVED => "removed"
  | SECURITY => "security" | PERFORMANCE => "performance"
  | OTHER => "other"
  end.

Definition title (m : t) : string :=
  match m with
  | ADDED => "New feature" | FIXED => "Bug fix"
  | CHANGED => "Feature change" | DEPRECATED => "New deprecation"
  | REMOVED => "Feature removal" | SECURITY => "Security fix"
  | PERFORMANCE => "Performance improvement" | OTHER => "Other"
  end.

(** The members in definition order, the order of iteration. *)
Definition members : list t :=
  [ADDED; FIXED; CHANGED; DEPRECATED; REMOVED; SECURITY; PERFORMANCE; OTHER].

(** The two dictionaries of the enumeration: by member name, by value. *)
Definition member_map : gmap string t :=
  list_to_map ((fun m => (name m, m)) <$> members).

Definition value_map : gmap Z t :=
  list_to_map ((fun m => (value m, m)) <$> members).

(** [CategoryChange[key]]; [None] stands for [KeyError] *)
Definition getitem (key : string) : option t := member_map !! key.

(** [CategoryChange(v)]; [None] stands for [ValueError] *)
Definition call (v : Z) : option t := value_map !! v.

(** [CategoryChange.values()] *)
Definition values : list string := category <$> members.

(** [len(CategoryChange)] *)
Definition len : nat := length members.

End CategoryChange.

(** ** ChangelogEntry *)

Module ChangelogEntry.

Record t : Type := Build {
  title : string;
  category : string;
  author : option string;
  pr : option string;
  notes : option string
}.

(** [ChangelogEntry(title, category, author, pr=None, notes=None)] *)
Definition init (title category : string) (author pr notes : option string) : t :=
  Build title category author pr notes.

(** A dictionary literal keeps the order in which its keys are written:
    the result is an association list. *)
Definition to_dict (self : t) : list (string * option string) :=
  [ ("title", Some (title self));
    ("category", Some (category self));
    ("author", author self);
    ("pull_request", pr self);
    ("notes", notes self) ].

End ChangelogEntry.

(** ** Prompts *)

Definition title_prompt : string :=
  ">> Please specify the title of your change".

Definition category_prompt : string :=
  ">> Please specify the category of your change" +:+ PyStr.LF +:+ PyStr.LF
  +:+ PyStr.join PyStr.LF
        ((fun cat => PyStr.str_of_nat (Z.to_nat (CategoryChange.value cat))
                     +:+ ". " +:+ CategoryChange.title cat)
           <$> CategoryChange.members)
  +:+ PyStr.LF +:+ PyStr.LF.

(** ** Validation callbacks (the unused [ctx] and [param] are left out) *)

Definition validate_title (value : string) : result string :=
  let value := PyStr.strip (PyStr.LF +:+ PyStr.CR +:+ " ") value in
  if PyStr.is_empty value then Raise (BadParameter "title cannot be empty")
  else Ok value.

Definition validate_category (value : string) : result string :=
  match PyStr.int value with
  | None =>
      (* The value is not an index. *)
      match CategoryChange.getitem (PyStr.upper value) with
      | None =>
          Raise (BadParameter
                   ("valid options are " +:+ PyStr.repr_list CategoryChange.values))
      | Some _ => Ok value
      end
  | Some value =>
      (* Check if the index is in range. *)
      match CategoryChange.call value with
      | Some m => Ok (CategoryChange.category m)
      | None =>
          Raise (BadParameter
                   ("please select an index between 1 and "
                    +:+ PyStr.str_of_nat CategoryChange.len))
      end
  end.

(** ** Serialisation *)

Section Serialisation.
(** PyYAML's emitter for a [str] value (plain, quoted or folded as the
    text requires), and [click.edit]: the text the user saved, or [None]
    when the editor was closed without saving. *)
Variable emit_str : string -> string.
Variable edit : string -> option string.

Definition yaml_scalar (v : option string) : string :=
  match v with
  | None => "null"
  | Some s => emit_str s
  end.

(** [yaml.dump(d, sort_keys=False, explicit_start=True)] for a dictionary
    with plain keys: the document start, then one [key: value] line per
    item, in the order of the dictionary. *)
Definition yaml_dump (d : list (string * option string)) : string :=
  "---" +:+ PyStr.LF
  +:+ String.concat EmptyString
        ((fun kv => fst kv +:+ ": " +:+ yaml_scalar (snd kv) +:+ PyStr.LF) <$> d).

(** Generates the content of a changelog entry. *)
Definition create_changelog_entry_content (title category : string)
    (author pr : option string) (run_editor : bool) : option string :=
  let entry := ChangelogEntry.init title category author pr None in
  let contents := ChangelogEntry.to_dict entry in
  let stream := yaml_dump contents in
  if run_editor then edit stream else Some stream.

End Serialisation.

(** ** Paths of the entries *)

(** The local variable [filename] of [determine_filepath]. *)
Definition entry_filename (title : string) : string :=
  let filename := PyStr.lower (PyStr.replace " " "-" title) in
  PyStr.slice_to (MAX_FILENAME_LENGTH - 1) filename +:+ YAML_FILE_EXTENSION.

(** Returns the changelog entry filename. *)
Definition determine_filepath (dirpath title : string) : string :=
  let filename := entry_filename title in
  PosixPath.join dirpath filename.

(** Returns the changelog entries dir path. *)
Definition determine_changelog_entries_dirpath
    (exec : option string -> list string -> string) : result string :=
  match GitHandler.root_path exec with
  | Ok basepath => Ok (PosixPath.join3 basepath "releases" "unreleased")
  | Raise e => Raise e
  end.

(** ** Writing an entry *)

(** [not content], for a content that is a [str] or [None] *)
Definition falsy (content : option string) : bool :=
  match content with
  | None => true
  | Some s => PyStr.is_empty s
  end.

(** The [with] block: open, write, close. *)
Definition write_file (filepath : string) (mode : open_mode) (data : string) : M unit :=
  do f <- py_open filepath mode;
  f_write f data.

(** Store the contents of an entry in a file. *)
Definition write_changelog_entry (dirpath title : string)
    (content : option string) (overwrite : bool) : M unit :=
  if falsy content then
    raise (ClickException "Aborting due to empty entry content")
  else
    let filepath := determine_filepath dirpath title in
    let mode := if overwrite then ModeW else ModeX in
    let filename := PosixPath.basename filepath in
    try_except_else
      (write_file filepath mode (default EmptyString content))
      (fun e =>
         match e with
         | FileExistsError _ =>
             raise (ClickException
                      ("Changelog entry " +:+ filename
                       +:+ " already exists. Use '--overwrite' to replace it."))
         | _ => raise e
         end)
      (fun _ => echo ("Changelog entry '" +:+ filename +:+ "' created")).

(** The world before anything ran. *)
Definition empty_world : world := World ∅ [] [].

(** The world of one entry, written earlier under the title "new change". *)
Definition world_with_entry : world :=
  World {[ "releases/unreleased/new-change.yml" := File "old" ]} [] [].

(** A process environment: the checkout /work/super/sub is a submodule of
    the superproject checked out at /work/super. *)
Definition exec_in_submodule (cwd : option string) (cmd : list string) : string :=
  if decide (cmd = cmd_show_superproject) then "/work/super" +:+ PyStr.LF
  else if decide (cmd = cmd_show_toplevel) then "/work/super/sub" +:+ PyStr.LF
  else EmptyString.

(** ** The entries directory and the command *)

(** [os.path.exists(path)]: a query, the world is left as it is. *)
Definition os_path_exists (path : string) : M bool :=
  fun w => (Ok (bool_decide (is_Some (files w !! path))), w).

(** [os.mkdir(path)] *)
Definition mkdir (path : string) : M unit :=
  fun w =>
    match files w !! path with
    | Some _ => (Raise (FileExistsError path), w)
    | None =>
        match creation_error (files w) path with
        | Some e => (Raise e, w)
        | None =>
            (Ok tt, World (<[path := Dir]> (files w)) (fs_calls w) (stdout w))
        end
    end.

(** [os.makedirs(name, mode=0o755)], for a name that does not end with a
    separator or a dot component.  [heads] lists the directories above
    [name], the nearest first: the nearest is the head that the library
    splits off, and when it does not exist the library calls itself on
    it, ignoring [FileExistsError], before it makes [name]. *)
Fixpoint makedirs_from (heads : list string) (name : string) : M unit :=
  match heads with
  | [] => mkdir name
  | head :: rest =>
      do found <- os_path_exists head;
      run (if found then ret tt
           else try_except_else (makedirs_from rest head)
                  (fun e =>
                     match e with
                     | FileExistsError _ => ret tt
                     | _ => raise e
                     end)
                  ret);
      mkdir name
  end.

Definition makedirs (name : string) : M unit :=
  makedirs_from (reverse (ancestors name)) name.

(** [str(e)] for an exception that is an [OSError], [None] for the
    others. *)
Definition os_error_str (e : exn) : option string :=
  match e with
  | IsADirectoryError path =>
      Some ("[Errno 21] Is a directory: " +:+ PyStr.repr path)
  | FileExistsError path =>
      Some ("[Errno 17] File exists: " +:+ PyStr.repr path)
  | FileNotFoundError path =>
      Some ("[Errno 2] No such file or directory: " +:+ PyStr.repr path)
  | NotADirectoryError path =>
      Some ("[Errno 20] Not a directory: " +:+ PyStr.repr path)
  | _ => None
  end.

(** [click.echo(message)] for a message that is a [str] or [None];
    [click.echo()] is [click_echo None]. *)
Definition click_echo (message : option string) : M unit :=
  echo (default EmptyString message).

Section Command.
(** The collaborators: the process behind [GitHandler._exec], the answer
    that [click.confirm] returns to a question (what it prints is left
    out), PyYAML's emitter of strings and the editor. *)
Variable exec : option string -> list string -> string.
Variable confirm : string -> bool.
Variable emit_str : string -> string.
Variable edit : string -> option string.

(** Check and create the changelog directory. *)
Definition check_changelog_entries_dir : M string :=
  match determine_changelog_entries_dirpath exec with
  | Raise e => raise e
  | Ok dirpath =>
      do found <- os_path_exists dirpath;
      if found then ret dirpath
      else
        run echo "Error: Changelog entries directory does not exist.";
        if negb (confirm "Do you want to create it?") then
          raise (ClickException
                   "Changelog entries directory is needed to continue.")
        else
          run try_except_else (makedirs dirpath)
                (fun ex =>
                   match os_error_str ex with
                   | Some msg =>
                       raise (ClickException
                                ("Unable to create directory. " +:+ msg))
                   | None => raise ex
                   end)
                (fun _ => echo ("New directory " +:+ dirpath +:+ " created"));
          ret dirpath
  end.

(** The body of the command [changelog]; [title] and [category] are the
    values that the two validation callbacks returned. *)
Definition changelog (title category : string)
    (dry_run overwrite editor : bool) : M unit :=
  run click_echo None;
  do dirpath <- check_changelog_entries_dir;
  let content :=
    create_changelog_entry_content emit_str edit title category None None editor in
  run click_echo None;
  if dry_run then click_echo content
  else write_changelog_entry dirpath title content overwrite.

End Command.

(** A process environment: an ordinary checkout at /work/project. *)
Definition exec_in_project (cwd : option string) (cmd : list string) : string :=
  if decide (cmd = cmd_show_toplevel) then "/work/project" +:+ PyStr.LF
  else EmptyString.

(** A process environment outside of any repository: git prints nothing
    on its standard output. *)
Definition exec_outside (cwd : option string) (cmd : list string) : string :=
  EmptyString.

(** The world of a checkout that has its entries directory. *)
Definition world_with_dir : world :=
  World (list_to_map
           [("/work", Dir); ("/work/project", Dir);
            ("/work/project/releases", Dir);
            ("/work/project/releases/unreleased", Dir)]) [] [].

(** The world of a checkout that has no directory of releases yet. *)
Definition world_with_checkout : world :=
  World (list_to_map [("/work", Dir); ("/work/project", Dir)]) [] [].

(** The world of a working directory that has its entries directory. *)
Definition world_with_releases : world :=
  World (list_to_map [("releases", Dir); ("releases/unreleased", Dir)]) [] [].

(** A title of 102 characters. *)
Definition long_title : string :=
  "update the documentation of the command line interface to describe every option and its default values".

(** ** Predicates of the statements *)

(** Every character of [s] is one of [chars]. *)
Definition only_chars (chars s : string) : bool :=
  PyStr.all_chars (fun c => PyStr.mem c chars) s.

Fixpoint last_char (s : string) : option ascii :=
  match s with
  | EmptyString => None
  | String c EmptyString => Some c
  | String _ r => last_char r
  end.

Definition first_char (s : string) : option ascii :=
  match s with
  | EmptyString => None
  | String c _ => Some c
  end.

(** [s] neither starts nor ends with a character of [chars]. *)
Definition trimmed (chars s : string) : bool :=
  match first_char s, last_char s with
  | Some a, Some b => negb (PyStr.mem a chars) && negb (PyStr.mem b chars)
  | _, _ => true
  end.

(** Every directory above [p] is there. *)
Definition dirs_above (fs : gmap string node) (p : string) : Prop :=
  Forall (fun a => fs !! a = Some Dir) (ancestors p).

(** No file stands in the way of the directory [p]: what lies above [p]
    is missing, or is a directory below directories. *)
Definition no_file_above (fs : gmap string node) (p : string) : Prop :=
  Forall (fun a => fs !! a = None \/ (fs !! a = Some Dir /\ dirs_above fs a))
         (ancestors p).

(** From [fs] to [fs'] nothing changed but directories of [allowed] that
    were missing and are there. *)
Definition new_dirs_only (allowed : list string) (fs fs' : gmap string node)
    : Prop :=
  forall p, fs' !! p = fs !! p
            \/ (fs !! p = None /\ fs' !! p = Some Dir /\ p ∈ allowed).

(** The characters that [validate_title] strips. *)
Definition title_blanks : string := PyStr.LF +:+ PyStr.CR +:+ " ".

(** No character of [s] is an upper-case letter. *)
Definition no_upper (s : string) : bool :=
  PyStr.all_chars (fun c => negb (PyStr.is_upper_char c)) s.


(** * Properties *)

(** Closed goals on the directories above a path, by looking them up. *)
Ltac eval_ancestors :=
  repeat match goal with
         | |- context [ancestors ?p] =>
             let l := eval vm_compute in (ancestors p) in
             change (ancestors p) with l
         end.

Ltac dirs_above_by_lookup :=
  unfold dirs_above; eval_ancestors;
  repeat (apply Forall_cons; split; [reflexivity|]); apply Forall_nil_2.

Ltac no_file_above_by_lookup :=
  unfold no_file_above; eval_ancestors;
  repeat (apply Forall_cons; split;
          [first [left; reflexivity
                 | right; split; [reflexivity | dirs_above_by_lookup]]|]);
  apply Forall_nil_2.


(** ** Strings *)

Section StringFacts.
Local Open Scope nat_scope.

Lemma map_chars_length f s : String.length (PyStr.map_chars f s) = String.length s.
Proof. induction s as [|c r IH]; simpl; congruence. Qed.

Lemma map_chars_get f s i :
  String.get i (PyStr.map_chars f s) = f <$> String.get i s.
Proof.
  revert i; induction s as [|c r IH]; intros [|i]; simpl; auto.
Qed.

Lemma all_chars_map_chars p f s :
  (forall c, p (f c) = true) -> PyStr.all_chars p (PyStr.map_chars f s) = true.
Proof.
  intros Hp; induction s as [|c r IH]; simpl; [done|].
  by rewrite Hp, IH.
Qed.

Lemma all_chars_app p s1 s2 :
  PyStr.all_chars p (s1 +:+ s2)
  = PyStr.all_chars p s1 && PyStr.all_chars p s2.
Proof.
  induction s1 as [|c r IH]; simpl; [done|].
  by rewrite IH, andb_assoc.
Qed.

Lemma all_chars_slice p n s :
  PyStr.all_chars p s = true -> PyStr.all_chars p (PyStr.slice_to n s) = true.
Proof.
  unfold PyStr.slice_to.
  revert n; induction s as [|c r IH]; intros [|n] H; simpl in *; auto.
  apply andb_true_iff in H as [Hc Hr].
  by rewrite Hc, IH.
Qed.

Lemma all_chars_get p s i c :
  PyStr.all_chars p s = true -> String.get i s = Some c -> p c = true.
Proof.
  revert i; induction s as [|d r IH]; intros [|i] H Hg; simpl in *;
    try discriminate; apply andb_true_iff in H as [Hd Hr].
  - congruence.
  - eauto.
Qed.

Lemma mem_all_chars c s :
  PyStr.mem c s = negb (PyStr.all_chars (fun d => negb (Ascii.eqb c d)) s).
Proof.
  induction s as [|d r IH]; simpl; [done|].
  rewrite IH. by destruct (Ascii.eqb c d).
Qed.

Lemma slice_length n s :
  String.length (PyStr.slice_to n s) = Nat.min n (String.length s).
Proof.
  unfold PyStr.slice_to.
  revert n; induction s as [|c r IH]; intros [|n]; simpl; auto.
Qed.

Lemma slice_get n s i :
  i < n -> String.get i (PyStr.slice_to n s) = String.get i s.
Proof.
  unfold PyStr.slice_to.
  revert n i; induction s as [|c r IH]; intros [|n] [|i] H; simpl; auto; try lia.
  apply IH; lia.
Qed.

Lemma app_length s1 s2 :
  String.length (s1 +:+ s2) = String.length s1 + String.length s2.
Proof. induction s1 as [|c r IH]; simpl; [done|]. by rewrite IH. Qed.

Lemma str_app_assoc (a b c : string) : (a +:+ b) +:+ c = a +:+ b +:+ c.
Proof. induction a as [|x a IH]; simpl; congruence. Qed.

Lemma app_get_l s1 s2 i c :
  String.get i s1 = Some c -> String.get i (s1 +:+ s2) = Some c.
Proof.
  revert i; induction s1 as [|d r IH]; intros [|i] H; simpl in *;
    try discriminate; auto.
Qed.

Lemma lower_char_not_upper c :
  PyStr.is_upper_char (PyStr.lower_char c) = false.
Proof. destruct c as [[] [] [] [] [] [] [] []]; reflexivity. Qed.

Lemma lower_char_idem c :
  PyStr.lower_char (PyStr.lower_char c) = PyStr.lower_char c.
Proof. destruct c as [[] [] [] [] [] [] [] []]; reflexivity. Qed.

Lemma lower_upper_char c :
  PyStr.lower_char (PyStr.upper_char c) = PyStr.lower_char c.
Proof. destruct c as [[] [] [] [] [] [] [] []]; reflexivity. Qed.

Lemma upper_lower_char c :
  PyStr.upper_char (PyStr.lower_char c) = PyStr.upper_char c.
Proof. destruct c as [[] [] [] [] [] [] [] []]; reflexivity. Qed.

Lemma lower_char_space c :
  Ascii.eqb (PyStr.lower_char c) " " = Ascii.eqb c " ".
Proof. destruct c as [[] [] [] [] [] [] [] []]; reflexivity. Qed.

Lemma map_chars_compose f g s :
  PyStr.map_chars f (PyStr.map_chars g s) = PyStr.map_chars (fun c => f (g c)) s.
Proof. induction s as [|c r IH]; simpl; congruence. Qed.

Lemma map_chars_ext f g s :
  (forall c, f c = g c) -> PyStr.map_chars f s = PyStr.map_chars g s.
Proof. intros H; induction s as [|c r IH]; simpl; congruence. Qed.

Lemma map_chars_fixed f s :
  PyStr.all_chars (fun c => Ascii.eqb (f c) c) s = true -> PyStr.map_chars f s = s.
Proof.
  induction s as [|c r IH]; simpl; [done|].
  intros [Hc Hr]%andb_true_iff. apply Ascii.eqb_eq in Hc.
  by rewrite Hc, IH.
Qed.

Lemma lower_upper s : PyStr.lower (PyStr.upper s) = PyStr.lower s.
Proof.
  unfold PyStr.lower, PyStr.upper. rewrite map_chars_compose.
  apply map_chars_ext, lower_upper_char.
Qed.

Lemma upper_lower s : PyStr.upper (PyStr.lower s) = PyStr.upper s.
Proof.
  unfold PyStr.lower, PyStr.upper. rewrite map_chars_compose.
  apply map_chars_ext, upper_lower_char.
Qed.

End StringFacts.

(** ** [str.strip] *)

Section StripFacts.
Variable chars : string.

Lemma is_empty_true s : PyStr.is_empty s = true -> s = EmptyString.
Proof. by destruct s. Qed.

Lemma lstrip_empty s :
  PyStr.is_empty (PyStr.lstrip chars s) = only_chars chars s.
Proof.
  unfold only_chars.
  induction s as [|c r IH]; simpl; [done|].
  destruct (PyStr.mem c chars); simpl; auto.
Qed.

Lemma rstrip_empty s :
  PyStr.is_empty (PyStr.rstrip chars s) = only_chars chars s.
Proof.
  unfold only_chars.
  induction s as [|c r IH]; simpl; [done|].
  rewrite <- IH.
  destruct (PyStr.is_empty (PyStr.rstrip chars r)), (PyStr.mem c chars); done.
Qed.

Lemma lstrip_first s a :
  first_char (PyStr.lstrip chars s) = Some a -> PyStr.mem a chars = false.
Proof.
  induction s as [|c r IH]; simpl; [done|].
  destruct (PyStr.mem c chars) eqn:Hc; simpl; [done|].
  by intros [= <-].
Qed.

Lemma rstrip_first s a :
  first_char (PyStr.rstrip chars s) = Some a -> first_char s = Some a.
Proof.
  destruct s as [|c r]; simpl; [done|].
  by destruct (PyStr.is_empty (PyStr.rstrip chars r) && PyStr.mem c chars).
Qed.

Lemma rstrip_last s b :
  last_char (PyStr.rstrip chars s) = Some b -> PyStr.mem b chars = false.
Proof.
  induction s as [|c r IH]; simpl; [done|].
  destruct (PyStr.rstrip chars r) as [|d r'] eqn:Hr; simpl in *.
  - destruct (PyStr.mem c chars) eqn:Hc; simpl; [done|].
    by intros [= <-].
  - done.
Qed.

Lemma lstrip_split s :
  exists pre, s = pre +:+ PyStr.lstrip chars s /\ only_chars chars pre = true.
Proof.
  induction s as [|c r (pre & Hr & Hpre)]; simpl.
  - by exists EmptyString.
  - destruct (PyStr.mem c chars) eqn:Hc.
    + exists (String c pre). simpl. split; [congruence|].
      unfold only_chars in *; simpl. by rewrite Hc.
    + by exists EmptyString.
Qed.

Lemma rstrip_split s :
  exists post, s = PyStr.rstrip chars s +:+ post /\ only_chars chars post = true.
Proof.
  induction s as [|c r (post & Hr & Hpost)]; simpl.
  - by exists EmptyString.
  - destruct (PyStr.rstrip chars r) as [|d r'] eqn:Hs; simpl in *.
    + destruct (PyStr.mem c chars) eqn:Hc; simpl.
      * exists (String c post). split; [simpl; congruence|].
        unfold only_chars in *; simpl. by rewrite Hc.
      * exists post. split; [simpl; congruence|done].
    + exists post. split; [simpl; congruence|done].
Qed.

Lemma strip_empty s :
  PyStr.is_empty (PyStr.strip chars s) = only_chars chars s.
Proof.
  unfold PyStr.strip. rewrite rstrip_empty, <- (lstrip_empty s).
  destruct (PyStr.lstrip chars s) as [|a r] eqn:Hl; [done|].
  assert (PyStr.mem a chars = false) as Ha
    by (apply (lstrip_first s); by rewrite Hl).
  unfold only_chars; simpl. by rewrite Ha.
Qed.

Lemma strip_trimmed s : trimmed chars (PyStr.strip chars s) = true.
Proof.
  unfold trimmed, PyStr.strip.
  destruct (first_char _) as [a|] eqn:Ha; [|done].
  destruct (last_char _) as [b|] eqn:Hb; [|done].
  apply rstrip_first, lstrip_first in Ha. apply rstrip_last in Hb.
  by rewrite Ha, Hb.
Qed.

Lemma strip_split s :
  exists pre post,
    s = pre +:+ PyStr.strip chars s +:+ post
    /\ only_chars chars pre = true /\ only_chars chars post = true.
Proof.
  destruct (lstrip_split s) as (pre & Hs & Hpre).
  destruct (rstrip_split (PyStr.lstrip chars s)) as (post & Hl & Hpost).
  exists pre, post. unfold PyStr.strip. by rewrite <- Hl.
Qed.

End StripFacts.

(** ** Validation of the title *)

(** What [validate_title] does. It strips the three characters line
    feed, carriage return and space from both ends of the title: the
    title is some padding of these characters, the value, and some more
    padding, and the value neither starts nor ends with one of them. It
    raises "title cannot be empty" exactly when the title holds nothing
    but these three characters, and returns the value otherwise. *)
Theorem validate_title_strips_blanks (t : string) :
  validate_title t
  = (if only_chars title_blanks t
     then Raise (BadParameter "title cannot be empty")
     else Ok (PyStr.strip title_blanks t))
  /\ trimmed title_blanks (PyStr.strip title_blanks t) = true
  /\ exists pre post,
       t = pre +:+ PyStr.strip title_blanks t +:+ post
       /\ only_chars title_blanks pre = true
       /\ only_chars title_blanks post = true.
Proof.
  split; [|split].
  - unfold validate_title. fold title_blanks.
    by rewrite strip_empty.
  - apply strip_trimmed.
  - apply strip_split.
Qed.

(** C3, the code at a title of one tab. The title is whitespace only,
    a control character only, and [validate_title] does not raise
    "title cannot be empty": the set of characters it strips names the
    line feed, the carriage return and the space and leaves the tab out,
    so the title is accepted and returned as it is. *)
Lemma validate_title_accepts_tab :
  PyStr.isspace PyStr.TAB = true
  /\ validate_title PyStr.TAB = Ok PyStr.TAB
  /\ validate_title PyStr.TAB <> Raise (BadParameter "title cannot be empty").
Proof. split; [reflexivity | split; [reflexivity | discriminate]]. Qed.

(** ** Root of the repository *)

Lemma root_path_falls_back exec :
  GitHandler._get_submodule_root_path exec = EmptyString ->
  GitHandler.root_path exec = Ok (GitHandler._get_root_path exec).
Proof. unfold GitHandler.root_path. by intros ->. Qed.

Lemma root_path_unbound exec :
  GitHandler._get_submodule_root_path exec <> EmptyString ->
  GitHandler.root_path exec = Raise (UnboundLocalError "basepath").
Proof.
  unfold GitHandler.root_path.
  by destruct (GitHandler._get_submodule_root_path exec).
Qed.

Lemma repo_root_path_unbound exec dirpath :
  Repo._get_submodule_root_path exec dirpath <> EmptyString ->
  Repo.root_path exec dirpath = Raise (UnboundLocalError "basepath").
Proof.
  unfold Repo.root_path.
  by destruct (Repo._get_submodule_root_path exec dirpath).
Qed.

(** C1, the code at a checkout that is a submodule. The superproject
    query answers /work/super, a path that is not empty, and [root_path]
    does not return it: the read of the local [basepath], which only the
    fallback branch assigns, raises [UnboundLocalError], in changelog.py
    and in repo.py alike, and the lookup of the entries directory fails
    with it. *)
Theorem root_path_in_submodule_raises :
  GitHandler._get_submodule_root_path exec_in_submodule = "/work/super"
  /\ GitHandler.root_path exec_in_submodule
     = Raise (UnboundLocalError "basepath")
  /\ Repo.root_path exec_in_submodule "/work/super/sub"
     = Raise (UnboundLocalError "basepath")
  /\ determine_changelog_entries_dirpath exec_in_submodule
     = Raise (UnboundLocalError "basepath").
Proof. repeat split; reflexivity. Qed.

(** ** Validation of the category *)

Lemma call_in_range n m :
  CategoryChange.call n = Some m -> 1 <= n <= 8 /\ CategoryChange.value m = n.
Proof.
  unfold CategoryChange.call, CategoryChange.value_map. intros H.
  apply elem_of_list_to_map_2 in H. cbn in H.
  repeat (apply elem_of_cons in H as [[= -> ->]|H]; [cbn; lia|]).
  by apply elem_of_nil in H.
Qed.

Lemma call_out_of_range n :
  n < 1 \/ 8 < n -> CategoryChange.call n = None.
Proof.
  intros Hn. unfold CategoryChange.call, CategoryChange.value_map.
  apply not_elem_of_list_to_map_1. cbn.
  rewrite !elem_of_cons, elem_of_nil. lia.
Qed.

Lemma getitem_name key m :
  CategoryChange.getitem key = Some m -> key = CategoryChange.name m.
Proof.
  unfold CategoryChange.getitem, CategoryChange.member_map. intros H.
  apply elem_of_list_to_map_2 in H. cbn in H.
  repeat (apply elem_of_cons in H as [[= -> ->]|H]; [done|]).
  by apply elem_of_nil in H.
Qed.

Lemma lower_name m :
  PyStr.lower (CategoryChange.name m) = CategoryChange.category m.
Proof. by destruct m. Qed.

Lemma category_in_values m :
  CategoryChange.category m ∈ CategoryChange.values.
Proof. unfold CategoryChange.values. destruct m; cbn; set_solver. Qed.

(** An index that is accepted yields the key of the member of that rank. *)
Lemma validate_category_index value n :
  PyStr.int value = Some n -> 1 <= n <= 8 ->
  exists m, CategoryChange.value m = n
            /\ validate_category value = Ok (CategoryChange.category m).
Proof.
  intros Hint Hn. unfold validate_category. rewrite Hint.
  destruct (CategoryChange.call n) as [m|] eqn:Hm.
  - exists m. split; [|done]. by apply call_in_range in Hm as [_ ?].
  - exfalso. revert Hm.
    assert (n = 1 \/ n = 2 \/ n = 3 \/ n = 4 \/ n = 5 \/ n = 6 \/ n = 7 \/ n = 8)
      as Hc by lia.
    by destruct Hc as [->|[->|[->|[->|[->|[->|[->| ->]]]]]]].
Qed.

(** A name that is accepted is returned as it was typed; it is a key up
    to letter case. *)
Lemma validate_category_name value v :
  PyStr.int value = None -> validate_category value = Ok v ->
  v = value /\ PyStr.lower value ∈ CategoryChange.values.
Proof.
  intros Hint. unfold validate_category. rewrite Hint.
  destruct (CategoryChange.getitem (PyStr.upper value)) as [m|] eqn:Hm; [|done].
  intros [= <-]. split; [done|].
  apply getitem_name in Hm.
  rewrite <- lower_upper, Hm, lower_name. apply category_in_values.
Qed.

(** C2, the code at the name ADDED. The name is accepted, and the value
    returned is the text that was typed, in upper case: it is not the
    key [added] of the member, which the index 1 does yield. *)
Theorem validate_category_keeps_typed_name :
  validate_category "ADDED" = Ok "ADDED"
  /\ validate_category "1" = Ok "added"
  /\ CategoryChange.category CategoryChange.ADDED = "added"
  /\ "ADDED" ∉ CategoryChange.values.
Proof.
  repeat split; try reflexivity.
  unfold CategoryChange.values; cbn.
  rewrite !elem_of_cons, elem_of_nil. intros H.
  repeat (destruct H as [H|H]; [discriminate|]). done.
Qed.

(** C8. A category that [int] reads as an integer below 1 or above 8 is
    refused with the message that names the bound, 1 and 8; a category
    that [int] does not read and that is none of the keys, letter case
    apart, is refused with the message that lists the eight keys in the
    order of the enumeration. *)
Theorem validate_category_rejects (value : string) :
  match PyStr.int value with
  | Some n => n < 1 \/ 8 < n
  | None => forall k, k ∈ CategoryChange.values -> PyStr.lower value <> k
  end ->
  validate_category value
  = Raise (BadParameter
             match PyStr.int value with
             | Some _ => "please select an index between 1 and 8"
             | None =>
                 "valid options are ['added', 'fixed', 'changed', 'deprecated', 'removed', 'security', 'performance', 'other']"
             end).
Proof.
  unfold validate_category.
  destruct (PyStr.int value) as [n|]; intros H.
  - by rewrite call_out_of_range.
  - destruct (CategoryChange.getitem (PyStr.upper value)) as [m|] eqn:Hm; [|done].
    exfalso. apply (H (CategoryChange.category m)).
    + apply category_in_values.
    + apply getitem_name in Hm.
      by rewrite <- lower_upper, Hm, lower_name.
Qed.

Lemma validate_category_rejects_witness :
  validate_category "42"
  = Raise (BadParameter "please select an index between 1 and 8")
  /\ validate_category "bogus"
     = Raise (BadParameter
                "valid options are ['added', 'fixed', 'changed', 'deprecated', 'removed', 'security', 'performance', 'other']").
Proof.
  split.
  - apply (validate_category_rejects "42").
    change (42 < 1 \/ 8 < 42). lia.
  - apply (validate_category_rejects "bogus").
    change (forall k, k ∈ CategoryChange.values -> "bogus" <> k).
    intros k Hk <-. revert Hk. unfold CategoryChange.values. cbn.
    rewrite !elem_of_cons, elem_of_nil. intros Hk.
    repeat (destruct Hk as [Hk|Hk]; [discriminate|]). done.
Defined.

(** ** Writing an entry *)

Lemma falsy_nonempty content :
  content <> EmptyString -> falsy (Some content) = false.
Proof. by destruct content. Qed.

Lemma walk_dirs fs path above :
  Forall (fun a => fs !! a = Some Dir) above -> walk fs path above = None.
Proof.
  induction 1 as [|a r Ha _ IH]; [done|]. cbn. by rewrite Ha.
Qed.

Lemma walk_error fs path above e :
  walk fs path above = Some e ->
  e = FileNotFoundError path \/ e = NotADirectoryError path.
Proof.
  induction above as [|a r IH]; [done|]. cbn.
  destruct (fs !! a) as [[c|]|]; [intros [= <-]; by right | exact IH |].
  intros [= <-]. by left.
Qed.

(** The three errors of a creation; [FileExistsError] is not one of them. *)
Lemma creation_error_kind fs path e :
  creation_error fs path = Some e ->
  e = ValueError "embedded null byte" \/ e = FileNotFoundError path
  \/ e = NotADirectoryError path.
Proof.
  unfold creation_error.
  destruct (PyStr.mem "000" path); [intros [= <-]; by left|].
  destruct (PyStr.is_empty path); [intros [= <-]; right; by left|].
  intros [->| ->]%walk_error; auto.
Qed.

Lemma creation_allowed fs path :
  PyStr.mem "000" path = false -> path <> EmptyString -> dirs_above fs path ->
  creation_error fs path = None.
Proof.
  intros Hnul Hne Hdirs. unfold creation_error. rewrite Hnul.
  destruct path; [done|]. by apply walk_dirs.
Qed.

Lemma entry_filename_nonempty title : entry_filename title <> EmptyString.
Proof.
  unfold entry_filename. intros H.
  apply (f_equal String.length) in H. rewrite app_length in H. cbn in H. lia.
Qed.

Lemma determine_filepath_nonempty dirpath title :
  determine_filepath dirpath title <> EmptyString.
Proof.
  unfold determine_filepath. pose proof (entry_filename_nonempty title) as Hf.
  destruct (entry_filename title) as [|c f]; [done|].
  intros H. apply (f_equal String.length) in H. revert H.
  unfold PosixPath.join.
  assert (String.length
            (if PyStr.is_empty dirpath || PosixPath.ends_with_sep dirpath
             then dirpath +:+ String c f
             else dirpath +:+ "/" +:+ String c f) <> 0%nat) as Hlen.
  { destruct (_ || _); rewrite ?app_length; cbn; lia. }
  destruct c as [[] [] [] [] [] [] [] []]; try done; cbn; lia.
Qed.

(** The run of [write_changelog_entry] on a content that is not empty. *)
Lemma write_run dirpath title content overwrite w :
  content <> EmptyString ->
  write_changelog_entry dirpath title (Some content) overwrite w
  = let p := determine_filepath dirpath title in
    let mode := if overwrite then ModeW else ModeX in
    let refused := World (files w) (fs_calls w ++ [OpenCall p mode]) (stdout w) in
    let written :=
      World (<[p := File content]> (files w))
            (fs_calls w ++ [OpenCall p mode; WriteCall p content])
            (stdout w
             ++ ["Changelog entry '" +:+ PosixPath.basename p
                 +:+ "' created" +:+ PyStr.LF]) in
    match files w !! p with
    | Some n =>
        match overwrite, n with
        | false, _ =>
            (Raise (ClickException
                      ("Changelog entry " +:+ PosixPath.basename p
                       +:+ " already exists. Use '--overwrite' to replace it.")),
             refused)
        | true, Dir => (Raise (IsADirectoryError p), refused)
        | true, File _ => (Ok tt, written)
        end
    | None =>
        match creation_error (files w) p with
        | Some e => (Raise e, refused)
        | None => (Ok tt, written)
        end
    end.
Proof.
  intros Hc. unfold write_changelog_entry.
  rewrite (falsy_nonempty _ Hc).
  unfold try_except_else, write_file, py_open, f_write, bind, log_call, raise, echo.
  cbn -[String.append creation_error].
  destruct (files w !! determine_filepath dirpath title) as [[old|]|] eqn:Hp.
  - destruct overwrite; cbn -[String.append]; [|done].
    by rewrite lookup_insert_eq, insert_insert_eq, <- app_assoc, !str_app_assoc.
  - by destruct overwrite.
  - destruct (creation_error _ _) as [e|] eqn:He.
    + apply creation_error_kind in He as [->|[->| ->]]; by destruct overwrite.
    + destruct overwrite; cbn -[String.append];
        by rewrite lookup_insert_eq, insert_insert_eq, <- app_assoc, !str_app_assoc.
Qed.

(** A content that is not empty reaches the file system: the call of
    [open] is logged whatever its outcome. *)
Lemma write_nonempty_opens dirpath title content overwrite w :
  content <> EmptyString ->
  exists l,
    fs_calls (snd (write_changelog_entry dirpath title (Some content) overwrite w))
    = fs_calls w
      ++ OpenCall (determine_filepath dirpath title)
                  (if overwrite then ModeW else ModeX) :: l.
Proof.
  intros Hc. rewrite write_run by done. cbn zeta.
  destruct (files w !! determine_filepath dirpath title) as [[c|]|], overwrite;
    cbn [snd fs_calls]; try (by eexists []); try (by eexists [_]).
  all: destruct (creation_error _ _); cbn [snd fs_calls];
    (by eexists []) || (by eexists [_]).
Qed.

(** A write to a path that does not exist, holds no NUL character and
    lies below directories that are all there creates the file with the
    content given, and says so on the standard output. *)
Lemma write_creates_entry dirpath title content overwrite w :
  content <> EmptyString ->
  files w !! determine_filepath dirpath title = None ->
  PyStr.mem "000" (determine_filepath dirpath title) = false ->
  dirs_above (files w) (determine_filepath dirpath title) ->
  exists w',
    write_changelog_entry dirpath title (Some content) overwrite w = (Ok tt, w')
    /\ files w' = <[determine_filepath dirpath title := File content]> (files w)
    /\ stdout w'
       = stdout w
         ++ ["Changelog entry '"
             +:+ PosixPath.basename (determine_filepath dirpath title)
             +:+ "' created" +:+ PyStr.LF].
Proof.
  intros Hc Hnone Hnul Hdirs. rewrite write_run by done. cbn zeta.
  rewrite Hnone.
  rewrite (creation_allowed _ _ Hnul (determine_filepath_nonempty _ _) Hdirs).
  by eexists.
Qed.

(** With [overwrite], the content of an existing entry is replaced. *)
Lemma write_overwrites_entry dirpath title content old w :
  content <> EmptyString ->
  files w !! determine_filepath dirpath title = Some (File old) ->
  exists w',
    write_changelog_entry dirpath title (Some content) true w = (Ok tt, w')
    /\ files w' !! determine_filepath dirpath title = Some (File content).
Proof.
  intros Hc Hold. rewrite write_run by done. cbn zeta. rewrite Hold.
  eexists; split; [reflexivity|]. cbn [files]. apply lookup_insert_eq.
Qed.

(** C5. With an empty content the write raises "Aborting due to empty
    entry content", with or without [overwrite], and the world it leaves
    is the world it found: no file is created or changed, and no call to
    the file system is made. *)
Theorem write_rejects_empty_content
    (dirpath title : string) (overwrite : bool) (w : world) :
  write_changelog_entry dirpath title (Some EmptyString) overwrite w
  = (Raise (ClickException "Aborting due to empty entry content"), w).
Proof. reflexivity. Qed.

(** C10. When the editor returns [None], the content of the entry is
    [None], and the write refuses it as it refuses the empty string: it
    raises "Aborting due to empty entry content" and leaves the world as
    it found it, with no call to the file system. *)
Theorem write_rejects_absent_content
    (emit_str : string -> string) (edit : string -> option string)
    (title category : string) (author pr : option string)
    (dirpath : string) (overwrite : bool) (w : world) :
  edit (yaml_dump emit_str
          (ChangelogEntry.to_dict
             (ChangelogEntry.init title category author pr None))) = None ->
  let content :=
    create_changelog_entry_content emit_str edit title category author pr true in
  content = None
  /\ write_changelog_entry dirpath title content overwrite w
     = (Raise (ClickException "Aborting due to empty entry content"), w)
  /\ write_changelog_entry dirpath title content overwrite w
     = write_changelog_entry dirpath title (Some EmptyString) overwrite w.
Proof.
  intros Hedit content.
  assert (content = None) as -> by exact Hedit.
  by repeat split.
Qed.

Lemma write_rejects_absent_content_witness :
  let content :=
    create_changelog_entry_content (fun s => s) (fun _ => None)
      "new change" "added" None None true in
  content = None
  /\ write_changelog_entry "releases/unreleased" "new change" content false
       empty_world
     = (Raise (ClickException "Aborting due to empty entry content"), empty_world)
  /\ write_changelog_entry "releases/unreleased" "new change" content false
       empty_world
     = write_changelog_entry "releases/unreleased" "new change"
         (Some EmptyString) false empty_world.
Proof.
  apply (write_rejects_absent_content (fun s => s) (fun _ => None)).
  reflexivity.
Defined.

(** C4. Without [overwrite], when something already sits at the path
    derived from the title, the write of a content that is not empty
    raises "Changelog entry ... already exists", and every file is left
    as it was: the only trace is the refused call of [open] in mode x. *)
Theorem write_refuses_existing_entry
    (dirpath title content : string) (w : world) :
  content <> EmptyString ->
  is_Some (files w !! determine_filepath dirpath title) ->
  exists w',
    write_changelog_entry dirpath title (Some content) false w
    = (Raise (ClickException
                ("Changelog entry "
                 +:+ PosixPath.basename (determine_filepath dirpath title)
                 +:+ " already exists. Use '--overwrite' to replace it.")),
       w')
    /\ files w' = files w
    /\ stdout w' = stdout w
    /\ fs_calls w'
       = fs_calls w ++ [OpenCall (determine_filepath dirpath title) ModeX].
Proof.
  intros Hc [n Hn]. unfold write_changelog_entry.
  rewrite (falsy_nonempty _ Hc).
  unfold try_except_else, write_file, py_open, bind, log_call, raise. cbn.
  rewrite Hn. destruct n; by eexists.
Qed.

Lemma write_refuses_existing_entry_witness :
  exists w',
    write_changelog_entry "releases/unreleased" "new change" (Some "new") false
      world_with_entry
    = (Raise (ClickException
                "Changelog entry new-change.yml already exists. Use '--overwrite' to replace it."),
       w')
    /\ files w' = files world_with_entry
    /\ stdout w' = stdout world_with_entry
    /\ fs_calls w'
       = fs_calls world_with_entry
         ++ [OpenCall "releases/unreleased/new-change.yml" ModeX].
Proof.
  apply (write_refuses_existing_entry "releases/unreleased" "new change" "new"
           world_with_entry).
  - discriminate.
  - by eexists.
Defined.

(** ** The derived file name *)

Section FilenameFacts.
Local Open Scope nat_scope.

Lemma filename_char_not_upper c :
  negb (PyStr.is_upper_char
          (PyStr.lower_char (if Ascii.eqb c " " then "-"%char else c))) = true.
Proof. destruct c as [[] [] [] [] [] [] [] []]; reflexivity. Qed.

Lemma filename_char_not_space c :
  negb (Ascii.eqb " "
          (PyStr.lower_char (if Ascii.eqb c " " then "-"%char else c))) = true.
Proof. destruct c as [[] [] [] [] [] [] [] []]; reflexivity. Qed.

Lemma no_upper_lower_fixed s : no_upper s = true -> PyStr.lower s = s.
Proof.
  unfold no_upper, PyStr.lower.
  induction s as [|c r IH]; simpl; [done|].
  intros [Hc Hr]%andb_true_iff. rewrite IH by done.
  unfold PyStr.lower_char. by destruct (PyStr.is_upper_char c).
Qed.

(** The stem of the file name, character by character. *)
Lemma filename_stem title :
  PyStr.lower (PyStr.replace " " "-" title)
  = PyStr.map_chars
      (fun c => PyStr.lower_char (if Ascii.eqb c " " then "-"%char else c))
      title.
Proof. unfold PyStr.lower, PyStr.replace. apply map_chars_compose. Qed.

Lemma get_mem s i c : String.get i s = Some c -> PyStr.mem c s = true.
Proof.
  revert i; induction s as [|d r IH]; intros [|i] H; simpl in *; try discriminate.
  - injection H as ->. by rewrite Ascii.eqb_refl.
  - rewrite (IH i H). apply orb_true_r.
Qed.

Lemma basename_no_sep p : PyStr.mem "/" (PosixPath.basename p) = false.
Proof.
  induction p as [|c r IH]; simpl; [done|].
  destruct (PyStr.mem "/" r) eqn:Hr; [done|].
  destruct (Ascii.eqb c "/") eqn:Hc; [done|].
  cbn [PyStr.mem]. rewrite Ascii.eqb_sym in Hc. by rewrite Hc, Hr.
Qed.

Lemma basename_length p :
  String.length (PosixPath.basename p) <= String.length p.
Proof.
  induction p as [|c r IH]; simpl; [done|].
  destruct (PyStr.mem "/" r); [lia|].
  destruct (Ascii.eqb c "/"); simpl; lia.
Qed.

(** What precedes a separator does not count. *)
Lemma basename_app_sep a b :
  PosixPath.basename (a +:+ String "/" b) = PosixPath.basename (String "/" b).
Proof.
  induction a as [|c a IH]; [done|].
  cbn [String.append PosixPath.basename].
  assert (PyStr.mem "/" (a +:+ String "/" b) = true) as ->; [|exact IH].
  clear IH. induction a as [|d a IHa]; simpl; [done|].
  rewrite IHa. apply orb_true_r.
Qed.

Lemma basename_after_sep b :
  String.length (PosixPath.basename (String "/" b)) <= String.length b.
Proof.
  cbn [PosixPath.basename]. destruct (PyStr.mem "/" b).
  - apply basename_length.
  - done.
Qed.

Lemma ends_with_sep_split a :
  PosixPath.ends_with_sep a = true -> exists a', a = a' +:+ "/".
Proof.
  induction a as [|c r IH]; simpl; [done|].
  destruct r as [|d r'].
  - intros ->%Ascii.eqb_eq. by exists EmptyString.
  - intros (a' & ->)%IH. by exists (String c a').
Qed.

(** The last component of a joined path is no longer than what was joined. *)
Lemma basename_join_length a b :
  String.length (PosixPath.basename (PosixPath.join a b)) <= String.length b.
Proof.
  assert (forall x, String.length
                      (PosixPath.basename (x +:+ String "/" b)) <= String.length b)
    as Hsep by (intros x; rewrite basename_app_sep; apply basename_after_sep).
  unfold PosixPath.join.
  assert (String.length
            (PosixPath.basename
               (if PyStr.is_empty a || PosixPath.ends_with_sep a
                then a +:+ b else a +:+ "/" +:+ b)) <= String.length b) as Hgen.
  { destruct a as [|c r]; [apply basename_length|].
    cbn [PyStr.is_empty orb].
    destruct (PosixPath.ends_with_sep (String c r)) eqn:He.
    - apply ends_with_sep_split in He as (a' & ->).
      rewrite str_app_assoc. apply Hsep.
    - apply Hsep. }
  destruct b as [|c b']; [exact Hgen|].
  destruct c as [[] [] [] [] [] [] [] []]; try exact Hgen.
  apply basename_length.
Qed.

End FilenameFacts.

(** C6. The file name of a title is the title with every space replaced
    by a hyphen, lower-cased, cut to its first 94 characters (the limit
    99 - len(".yml") = 95, less one) and followed by ".yml". It is at most
    99 characters long, extension included (98, in fact), holds no
    upper-case letter, is its own lower-casing and holds no space. *)
Theorem entry_filename_bounded (title : string) :
  MAX_FILENAME_LENGTH = 95%nat
  /\ entry_filename title
     = PyStr.slice_to 94 (PyStr.lower (PyStr.replace " " "-" title)) +:+ ".yml"
  /\ String.length (entry_filename title)
     = (Nat.min 94 (String.length title) + 4)%nat
  /\ (String.length (entry_filename title) <= 99)%nat
  /\ no_upper (entry_filename title) = true
  /\ PyStr.lower (entry_filename title) = entry_filename title
  /\ PyStr.mem " " (entry_filename title) = false.
Proof.
  assert (no_upper (entry_filename title) = true) as Hup.
  { unfold no_upper, entry_filename. rewrite all_chars_app.
    apply andb_true_iff; split; [|reflexivity].
    apply all_chars_slice. rewrite filename_stem.
    apply all_chars_map_chars, filename_char_not_upper. }
  assert (String.length (entry_filename title)
          = (Nat.min 94 (String.length title) + 4)%nat) as Hlen.
  { unfold entry_filename.
    rewrite app_length, slice_length, filename_stem, map_chars_length.
    reflexivity. }
  repeat apply conj; try done.
  - rewrite Hlen. lia.
  - by apply no_upper_lower_fixed.
  - rewrite mem_all_chars. apply negb_false_iff.
    unfold entry_filename. rewrite all_chars_app.
    apply andb_true_iff; split; [|reflexivity].
    apply all_chars_slice. rewrite filename_stem.
    apply all_chars_map_chars, filename_char_not_space.
Qed.

(** The name of the file that is written, the last component of the
    path, is within the bound as well. *)
Lemma written_name_bounded dirpath title :
  (String.length (PosixPath.basename (determine_filepath dirpath title)) <= 99)%nat.
Proof.
  unfold determine_filepath.
  etransitivity; [apply basename_join_length|].
  unfold entry_filename.
  rewrite app_length, slice_length.
  change (MAX_FILENAME_LENGTH - 1)%nat with 94%nat.
  change (String.length YAML_FILE_EXTENSION) with 4%nat. lia.
Qed.

(** C9. Below the cut, a character of the title that is not a space is
    found at the same place in the file name, lower-cased and otherwise
    unchanged. A slash is such a character: the file name then holds a
    slash, and the path of the entry ends in a name that is not the file
    name, the file lying in a directory below the entries directory (or
    elsewhere) rather than in it. *)
Theorem entry_filename_keeps_characters
    (dirpath title : string) (i : nat) (c : ascii) :
  (i < MAX_FILENAME_LENGTH - 1)%nat ->
  String.get i title = Some c ->
  c <> " "%char ->
  String.get i (entry_filename title) = Some (PyStr.lower_char c)
  /\ (c = "/"%char ->
      PyStr.mem "/" (entry_filename title) = true
      /\ PosixPath.basename (determine_filepath dirpath title)
         <> entry_filename title).
Proof.
  intros Hi Hget Hc.
  assert (String.get i (entry_filename title) = Some (PyStr.lower_char c)) as Hfn.
  { unfold entry_filename. apply app_get_l.
    rewrite slice_get by exact Hi.
    rewrite filename_stem, map_chars_get, Hget. simpl.
    apply Ascii.eqb_neq in Hc. by rewrite Hc. }
  split; [done|]. intros ->.
  assert (PyStr.mem "/" (entry_filename title) = true) as Hmem
    by exact (get_mem _ _ _ Hfn).
  split; [done|]. intros Heq.
  pose proof (basename_no_sep (determine_filepath dirpath title)) as Hb.
  rewrite Heq in Hb. congruence.
Qed.

Lemma entry_filename_keeps_characters_witness :
  String.get 5 (entry_filename "Fix a/b") = Some "/"%char
  /\ determine_filepath "releases/unreleased" "Fix a/b"
     = "releases/unreleased/fix-a/b.yml"
  /\ PosixPath.basename (determine_filepath "releases/unreleased" "Fix a/b")
     <> entry_filename "Fix a/b".
Proof.
  destruct (entry_filename_keeps_characters
              "releases/unreleased" "Fix a/b" 5 "/") as [Hget Hsep].
  - unfold MAX_FILENAME_LENGTH. simpl. lia.
  - reflexivity.
  - discriminate.
  - split; [exact Hget|]. split; [reflexivity|].
    by destruct (Hsep eq_refl).
Defined.

(** ** Serialisation *)

(** C7. The dictionary of an entry lists the five fields in the order
    title, category, author, pull_request, notes, each with its value,
    [None] for an absent author, pull request or notes. The document
    has one line per field, in that order, and an absent field is
    written [null]: the entry built by [create_changelog_entry_content],
    which has neither author nor pull request nor notes, ends with the
    three lines author: null, pull_request: null, notes: null. *)
Theorem entry_serialisation_shape
    (emit_str : string -> string) (edit : string -> option string)
    (e : ChangelogEntry.t) :
  fst <$> ChangelogEntry.to_dict e
  = ["title"; "category"; "author"; "pull_request"; "notes"]
  /\ snd <$> ChangelogEntry.to_dict e
     = [Some (ChangelogEntry.title e); Some (ChangelogEntry.category e);
        ChangelogEntry.author e; ChangelogEntry.pr e; ChangelogEntry.notes e]
  /\ yaml_dump emit_str (ChangelogEntry.to_dict e)
     = "---" +:+ PyStr.LF
       +:+ "title: " +:+ emit_str (ChangelogEntry.title e) +:+ PyStr.LF
       +:+ "category: " +:+ emit_str (ChangelogEntry.category e) +:+ PyStr.LF
       +:+ "author: " +:+ yaml_scalar emit_str (ChangelogEntry.author e) +:+ PyStr.LF
       +:+ "pull_request: " +:+ yaml_scalar emit_str (ChangelogEntry.pr e) +:+ PyStr.LF
       +:+ "notes: " +:+ yaml_scalar emit_str (ChangelogEntry.notes e) +:+ PyStr.LF
  /\ yaml_scalar emit_str None = "null"
  /\ create_changelog_entry_content emit_str edit
       (ChangelogEntry.title e) (ChangelogEntry.category e) None None false
     = Some ("---" +:+ PyStr.LF
             +:+ "title: " +:+ emit_str (ChangelogEntry.title e) +:+ PyStr.LF
             +:+ "category: " +:+ emit_str (ChangelogEntry.category e) +:+ PyStr.LF
             +:+ "author: null" +:+ PyStr.LF
             +:+ "pull_request: null" +:+ PyStr.LF
             +:+ "notes: null" +:+ PyStr.LF).
Proof.
  split; [reflexivity|]. split; [reflexivity|].
  split; [|split; [reflexivity|]].
  - unfold yaml_dump. cbn -[String.append yaml_scalar].
    rewrite !str_app_assoc. reflexivity.
  - unfold create_changelog_entry_content, yaml_dump.
    cbn -[String.append]. rewrite !str_app_assoc. reflexivity.
Qed.

(** * Further properties of the code *)

(** ** Titles and categories that were validated *)

Section StripFixed.
Variable chars : string.

Lemma last_char_some c r : exists b, last_char (String c r) = Some b.
Proof.
  revert c; induction r as [|d r IH]; intros c; [by exists c|].
  destruct (IH d) as [b Hb]. by exists b.
Qed.

Lemma lstrip_fixed s :
  trimmed chars s = true -> PyStr.lstrip chars s = s.
Proof.
  unfold trimmed. destruct s as [|c r]; [done|].
  destruct (last_char_some c r) as [b ->].
  cbn [first_char PyStr.lstrip].
  by destruct (PyStr.mem c chars).
Qed.

Lemma rstrip_cons c r :
  PyStr.rstrip chars (String c r)
  = if PyStr.is_empty (PyStr.rstrip chars r) && PyStr.mem c chars
    then EmptyString else String c (PyStr.rstrip chars r).
Proof. reflexivity. Qed.

Lemma rstrip_keeps_last s b :
  last_char s = Some b -> PyStr.mem b chars = false -> PyStr.rstrip chars s = s.
Proof.
  induction s as [|c r IH]; [done|].
  rewrite rstrip_cons. destruct r as [|d r'].
  - cbn. intros [= ->] ->. done.
  - intros Hl Hb. by rewrite (IH Hl Hb).
Qed.

Lemma strip_fixed s : trimmed chars s = true -> PyStr.strip chars s = s.
Proof.
  intros Ht. unfold PyStr.strip. rewrite (lstrip_fixed s Ht).
  unfold trimmed in Ht.
  destruct s as [|c r]; [done|]. cbn [first_char] in Ht.
  destruct (last_char_some c r) as [b Hb]. rewrite Hb in Ht.
  apply andb_true_iff in Ht as [_ Hm%negb_true_iff].
  by apply (rstrip_keeps_last _ b).
Qed.

Lemma strip_length s :
  (String.length (PyStr.strip chars s) <= String.length s)%nat.
Proof.
  destruct (strip_split chars s) as (pre & post & Hs & _).
  rewrite Hs at 2. rewrite !app_length. lia.
Qed.

End StripFixed.

(** A title that [validate_title] returned is not empty, is no longer
    than the title given, and is returned unchanged when it is validated
    again. *)
Theorem validate_title_idempotent (t v : string) :
  validate_title t = Ok v ->
  validate_title v = Ok v
  /\ v <> EmptyString
  /\ (String.length v <= String.length t)%nat.
Proof.
  unfold validate_title. fold title_blanks.
  destruct (PyStr.is_empty (PyStr.strip title_blanks t)) eqn:He; [done|].
  intros [= <-].
  rewrite (strip_fixed _ _ (strip_trimmed title_blanks t)), He.
  split; [done|]. split; [|apply strip_length].
  intros Hv. by rewrite Hv in He.
Qed.

Lemma validate_title_idempotent_witness :
  validate_title "fix  the parser" = Ok "fix  the parser"
  /\ "fix  the parser" <> EmptyString
  /\ (String.length "fix  the parser"
      <= String.length (" fix  the parser " +:+ PyStr.LF))%nat.
Proof.
  apply (validate_title_idempotent (" fix  the parser " +:+ PyStr.LF)).
  reflexivity.
Defined.

Lemma getitem_of_name m :
  CategoryChange.getitem (CategoryChange.name m) = Some m.
Proof. by destruct m. Qed.

Lemma upper_category m :
  PyStr.upper (CategoryChange.category m) = CategoryChange.name m.
Proof. by destruct m. Qed.

Lemma int_of_category m : PyStr.int (CategoryChange.category m) = None.
Proof. by destruct m. Qed.

Lemma validate_category_of_key m :
  validate_category (CategoryChange.category m) = Ok (CategoryChange.category m).
Proof. by destruct m. Qed.

Lemma validate_category_index_witness :
  exists m, CategoryChange.value m = 3
            /\ validate_category " 3 " = Ok (CategoryChange.category m).
Proof.
  apply (validate_category_index " 3 " 3); [reflexivity | lia].
Defined.

Lemma lower_category m :
  PyStr.lower (CategoryChange.category m) = CategoryChange.category m.
Proof. by destruct m. Qed.

Lemma key_of_lower value :
  PyStr.lower value ∈ CategoryChange.values ->
  exists m, PyStr.upper value = CategoryChange.name m.
Proof.
  unfold CategoryChange.values. intros (m & Hm & _)%list_elem_of_fmap.
  exists m. by rewrite <- upper_lower, Hm, upper_category.
Qed.

(** A category that [int] does not read is accepted exactly when its
    lower-casing is one of the keys, and what is returned is then the
    category as it was given. *)
Theorem validate_category_name_accepted (value : string) :
  PyStr.int value = None ->
  (PyStr.lower value ∈ CategoryChange.values
   <-> validate_category value = Ok value)
  /\ (forall v, validate_category value = Ok v -> v = value).
Proof.
  intros Hint. split; [split|].
  - intros (m & Hm)%key_of_lower.
    unfold validate_category. by rewrite Hint, Hm, getitem_of_name.
  - intros H. by apply validate_category_name in H as [_ ?].
  - intros v H. by apply validate_category_name in H as [? _].
Qed.

Lemma validate_category_name_accepted_witness :
  (PyStr.lower "Security" ∈ CategoryChange.values
   <-> validate_category "Security" = Ok "Security")
  /\ (forall v, validate_category "Security" = Ok v -> v = "Security").
Proof.
  apply (validate_category_name_accepted "Security"). reflexivity.
Defined.

(** A category that [validate_category] returned is a key up to letter
    case, and it is returned unchanged when it is validated again. *)
Theorem validate_category_idempotent (value v : string) :
  validate_category value = Ok v ->
  validate_category v = Ok v
  /\ PyStr.lower v ∈ CategoryChange.values.
Proof.
  intros H. destruct (PyStr.int value) as [n|] eqn:Hint.
  - unfold validate_category in H. rewrite Hint in H.
    destruct (CategoryChange.call n) as [m|]; [|done].
    injection H as <-. split; [apply validate_category_of_key|].
    rewrite lower_category. apply category_in_values.
  - destruct (validate_category_name _ _ Hint H) as [-> Hk]. done.
Qed.

Lemma validate_category_idempotent_witness :
  validate_category "fixed" = Ok "fixed"
  /\ PyStr.lower "fixed" ∈ CategoryChange.values.
Proof.
  apply (validate_category_idempotent "2"). reflexivity.
Defined.

(** The number of a member, written in decimal as the prompt shows it,
    and the key of the member select the same category: both are accepted
    with the key as the result. *)
Theorem validate_category_number_and_key (m : CategoryChange.t) :
  validate_category (PyStr.str_of_nat (Z.to_nat (CategoryChange.value m)))
  = Ok (CategoryChange.category m)
  /\ validate_category (CategoryChange.category m)
     = Ok (CategoryChange.category m).
Proof. destruct m; split; reflexivity. Qed.

(** ** Paths of the entries *)

Section PathFacts.
Local Open Scope nat_scope.

Lemma all_chars_map_chars_impl (p q : ascii -> bool) f s :
  (forall c, p c = true -> q (f c) = true) ->
  PyStr.all_chars p s = true -> PyStr.all_chars q (PyStr.map_chars f s) = true.
Proof.
  intros Hpq. induction s as [|c r IH]; simpl; [done|].
  intros [Hc Hr]%andb_true_iff. by rewrite (Hpq c Hc), IH.
Qed.

Lemma filename_char_not_sep c :
  negb (Ascii.eqb "/" c) = true ->
  negb (Ascii.eqb "/"
          (PyStr.lower_char (if Ascii.eqb c " " then "-"%char else c))) = true.
Proof. destruct c as [[] [] [] [] [] [] [] []]; done. Qed.

Lemma entry_filename_no_sep title :
  PyStr.mem "/" title = false -> PyStr.mem "/" (entry_filename title) = false.
Proof.
  rewrite !mem_all_chars. intros H%negb_false_iff. apply negb_false_iff.
  unfold entry_filename. rewrite all_chars_app.
  apply andb_true_iff; split; [|reflexivity].
  apply all_chars_slice. rewrite filename_stem.
  by apply (all_chars_map_chars_impl _ _ _ _ filename_char_not_sep).
Qed.

Lemma basename_plain b :
  PyStr.mem "/" b = false -> PosixPath.basename b = b.
Proof.
  destruct b as [|c r]; [done|]. cbn [PyStr.mem PosixPath.basename].
  intros [Hc Hr]%orb_false_iff. rewrite Hr.
  rewrite Ascii.eqb_sym in Hc. by rewrite Hc.
Qed.

Lemma basename_sep_plain a b :
  PyStr.mem "/" b = false -> PosixPath.basename (a +:+ String "/" b) = b.
Proof.
  intros Hb. rewrite basename_app_sep. cbn [PosixPath.basename].
  by rewrite Hb.
Qed.

Lemma join_plain a b :
  PyStr.mem "/" b = false ->
  PosixPath.join a b
  = if PyStr.is_empty a || PosixPath.ends_with_sep a then a +:+ b
    else a +:+ "/" +:+ b.
Proof.
  unfold PosixPath.join. destruct b as [|c b']; [done|].
  cbn [PyStr.mem]. intros [Hc _]%orb_false_iff.
  destruct c as [[] [] [] [] [] [] [] []]; done.
Qed.

Lemma basename_join_plain a b :
  PyStr.mem "/" b = false -> PosixPath.basename (PosixPath.join a b) = b.
Proof.
  intros Hb. rewrite (join_plain a b Hb).
  destruct a as [|c r]; [by apply basename_plain|].
  cbn [PyStr.is_empty orb].
  destruct (PosixPath.ends_with_sep (String c r)) eqn:He.
  - apply ends_with_sep_split in He as (a' & ->).
    rewrite str_app_assoc. by apply basename_sep_plain.
  - by apply basename_sep_plain.
Qed.

Lemma map_chars_app f a b :
  PyStr.map_chars f (a +:+ b) = PyStr.map_chars f a +:+ PyStr.map_chars f b.
Proof. induction a as [|c a IH]; simpl; congruence. Qed.

Lemma slice_app n a b :
  n <= String.length a -> PyStr.slice_to n (a +:+ b) = PyStr.slice_to n a.
Proof.
  unfold PyStr.slice_to.
  revert n; induction a as [|c a IH]; intros [|n] H; simpl in *; try lia.
  - by destruct b.
  - done.
  - rewrite IH by lia. done.
Qed.

Lemma stem_char_upper c :
  PyStr.lower_char
    (if Ascii.eqb (PyStr.upper_char c) " " then "-"%char else PyStr.upper_char c)
  = PyStr.lower_char (if Ascii.eqb c " " then "-"%char else c).
Proof. destruct c as [[] [] [] [] [] [] [] []]; reflexivity. Qed.

Lemma stem_char_lower c :
  PyStr.lower_char
    (if Ascii.eqb (PyStr.lower_char c) " " then "-"%char else PyStr.lower_char c)
  = PyStr.lower_char (if Ascii.eqb c " " then "-"%char else c).
Proof. destruct c as [[] [] [] [] [] [] [] []]; reflexivity. Qed.

Lemma stem_char_hyphen c :
  PyStr.lower_char
    (if Ascii.eqb (if Ascii.eqb c " " then "-"%char else c) " "
     then "-"%char else (if Ascii.eqb c " " then "-"%char else c))
  = PyStr.lower_char (if Ascii.eqb c " " then "-"%char else c).
Proof. destruct c as [[] [] [] [] [] [] [] []]; reflexivity. Qed.

End PathFacts.

(** A title that starts with a slash gives a path that starts with a
    slash: [os.path.join] drops the entries directory, and the path of
    the entry is the file name alone, an absolute path. *)
Theorem absolute_title_drops_directory (dirpath title rest : string) :
  title = String "/" rest ->
  determine_filepath dirpath title = entry_filename title
  /\ first_char (determine_filepath dirpath title) = Some "/"%char.
Proof.
  intros ->. unfold determine_filepath, entry_filename.
  change (MAX_FILENAME_LENGTH - 1)%nat with 94%nat. by cbn.
Qed.

Lemma absolute_title_drops_directory_witness :
  determine_filepath "/work/project/releases/unreleased" "/tmp/x"
  = entry_filename "/tmp/x"
  /\ first_char (determine_filepath "/work/project/releases/unreleased" "/tmp/x")
     = Some "/"%char.
Proof.
  apply (absolute_title_drops_directory _ "/tmp/x" "tmp/x"). reflexivity.
Defined.

(** A title without a slash gives an entry that lies in the directory
    given: the path is the directory, a separator unless the directory is
    empty or ends with one, and the file name; its last component is the
    file name. *)
Theorem plain_title_stays_in_directory (dirpath title : string) :
  PyStr.mem "/" title = false ->
  determine_filepath dirpath title
  = (if PyStr.is_empty dirpath || PosixPath.ends_with_sep dirpath
     then dirpath +:+ entry_filename title
     else dirpath +:+ "/" +:+ entry_filename title)
  /\ PosixPath.basename (determine_filepath dirpath title)
     = entry_filename title.
Proof.
  intros H%entry_filename_no_sep. unfold determine_filepath. split.
  - by apply join_plain.
  - by apply basename_join_plain.
Qed.

Lemma plain_title_stays_in_directory_witness :
  determine_filepath "releases/unreleased" "New change"
  = "releases/unreleased/new-change.yml"
  /\ PosixPath.basename (determine_filepath "releases/unreleased" "New change")
     = entry_filename "New change".
Proof.
  apply (plain_title_stays_in_directory "releases/unreleased" "New change").
  reflexivity.
Defined.

(** Titles that differ only in the case of their letters, or in hyphens
    written for spaces, have the same file name. *)
Theorem entry_filename_ignores_case_and_spaces (title : string) :
  entry_filename (PyStr.upper title) = entry_filename title
  /\ entry_filename (PyStr.lower title) = entry_filename title
  /\ entry_filename (PyStr.replace " " "-" title) = entry_filename title.
Proof.
  unfold entry_filename. rewrite !filename_stem.
  unfold PyStr.upper, PyStr.lower, PyStr.replace. rewrite !map_chars_compose.
  rewrite (map_chars_ext _ _ title stem_char_upper).
  rewrite (map_chars_ext _ _ title stem_char_lower).
  by rewrite (map_chars_ext _ _ title stem_char_hyphen).
Qed.

(** What follows the first 94 characters of a title does not count:
    titles that share them have the same file name. *)
Theorem entry_filename_ignores_tail (title tail : string) :
  (94 <= String.length title)%nat ->
  entry_filename (title +:+ tail) = entry_filename title.
Proof.
  intros Hlen. unfold entry_filename. rewrite !filename_stem.
  change (MAX_FILENAME_LENGTH - 1)%nat with 94%nat.
  rewrite map_chars_app, slice_app; [done|].
  by rewrite map_chars_length.
Qed.

Lemma entry_filename_ignores_tail_witness :
  entry_filename (long_title +:+ ", second part") = entry_filename long_title.
Proof.
  apply (entry_filename_ignores_tail long_title ", second part").
  vm_compute. lia.
Defined.

(** ** Writing an entry, case by case *)

Lemma same_filename_same_path dirpath title1 title2 :
  entry_filename title2 = entry_filename title1 ->
  determine_filepath dirpath title2 = determine_filepath dirpath title1.
Proof. unfold determine_filepath. by intros ->. Qed.

(** Whatever the content, the flag and the outcome, the write leaves
    every path other than the path of the entry as it was. *)
Theorem write_touches_one_path
    (dirpath title : string) (content : option string) (overwrite : bool)
    (w : world) (p : string) :
  p <> determine_filepath dirpath title ->
  files (snd (write_changelog_entry dirpath title content overwrite w)) !! p
  = files w !! p.
Proof.
  intros Hp. destruct content as [[|c s]|]; [done| |done].
  rewrite write_run by done. cbn zeta.
  destruct (files w !! determine_filepath dirpath title) as [[old|]|], overwrite;
    cbn [snd files]; try done.
  1: by rewrite lookup_insert_ne.
  all: destruct (creation_error _ _); cbn [snd files]; [done|].
  all: by rewrite lookup_insert_ne.
Qed.

Lemma write_touches_one_path_witness :
  files (snd (write_changelog_entry "releases/unreleased" "other change"
                (Some "new") true world_with_entry))
    !! "releases/unreleased/new-change.yml"
  = files world_with_entry !! "releases/unreleased/new-change.yml".
Proof.
  apply (write_touches_one_path "releases/unreleased" "other change").
  discriminate.
Defined.

(** A write that raises has changed no file and printed nothing. *)
Theorem write_failure_changes_nothing
    (dirpath title : string) (content : option string) (overwrite : bool)
    (w w' : world) (e : exn) :
  write_changelog_entry dirpath title content overwrite w = (Raise e, w') ->
  files w' = files w /\ stdout w' = stdout w.
Proof.
  destruct content as [[|c s]|].
  - by intros [= _ <-].
  - rewrite write_run by done. cbn zeta.
    destruct (files w !! determine_filepath dirpath title) as [[old|]|], overwrite;
      try (by intros [= _ <-]).
    all: destruct (creation_error _ _); by intros [= _ <-].
  - by intros [= _ <-].
Qed.

Lemma write_failure_changes_nothing_witness :
  files (snd (write_changelog_entry "releases/unreleased" "new change"
                (Some "new") false world_with_entry))
  = files world_with_entry
  /\ stdout (snd (write_changelog_entry "releases/unreleased" "new change"
                    (Some "new") false world_with_entry))
     = stdout world_with_entry.
Proof.
  apply (write_failure_changes_nothing "releases/unreleased" "new change"
           (Some "new") false world_with_entry _
           (ClickException
              "Changelog entry new-change.yml already exists. Use '--overwrite' to replace it.")).
  reflexivity.
Defined.

Lemma walk_missing fs path above a :
  a ∈ above -> fs !! a = None ->
  Forall (fun b => forall c, fs !! b <> Some (File c)) above ->
  walk fs path above = Some (FileNotFoundError path).
Proof.
  induction above as [|b r IH]; [by intros ?%elem_of_nil|].
  intros Hin Ha Hfiles. apply Forall_cons in Hfiles as [Hb Hr]. cbn.
  destruct (fs !! b) as [[c|]|] eqn:Eb; [by destruct (Hb c) | | done].
  apply elem_of_cons in Hin as [->|Hin]; [congruence|]. by apply IH.
Qed.

(** When a directory above the path of the entry is missing and none is
    a file, as for a title with a slash whose directory was never made,
    the write raises [FileNotFoundError], which the code does not turn
    into an error of the command; no file has changed and nothing was
    printed. *)
Theorem write_below_missing_directory
    (dirpath title content : string) (overwrite : bool) (w : world) (a : string) :
  content <> EmptyString ->
  files w !! determine_filepath dirpath title = None ->
  PyStr.mem "000" (determine_filepath dirpath title) = false ->
  a ∈ ancestors (determine_filepath dirpath title) ->
  files w !! a = None ->
  Forall (fun b => forall c, files w !! b <> Some (File c))
         (ancestors (determine_filepath dirpath title)) ->
  exists w',
    write_changelog_entry dirpath title (Some content) overwrite w
    = (Raise (FileNotFoundError (determine_filepath dirpath title)), w')
    /\ files w' = files w
    /\ stdout w' = stdout w.
Proof.
  intros Hc Hfree Hnul Hin Ha Hfiles. rewrite write_run by done. cbn zeta.
  rewrite Hfree. unfold creation_error. rewrite Hnul.
  destruct (determine_filepath dirpath title) as [|x p] eqn:Hp;
    [by apply determine_filepath_nonempty in Hp|].
  cbn [PyStr.is_empty]. rewrite (walk_missing _ _ _ a Hin Ha Hfiles).
  by eexists.
Qed.

Lemma write_below_missing_directory_witness :
  exists w',
    write_changelog_entry "releases/unreleased" "Fix a/b" (Some "text") false
      world_with_releases
    = (Raise (FileNotFoundError "releases/unreleased/fix-a/b.yml"), w')
    /\ files w' = files world_with_releases
    /\ stdout w' = stdout world_with_releases.
Proof.
  apply (write_below_missing_directory "releases/unreleased" "Fix a/b" "text"
           false world_with_releases "releases/unreleased/fix-a").
  - discriminate.
  - reflexivity.
  - reflexivity.
  - eval_ancestors. apply elem_of_cons. right. apply elem_of_cons. right.
    apply elem_of_cons. by left.
  - reflexivity.
  - eval_ancestors.
    repeat (apply Forall_cons; split; [intros c; discriminate|]).
    apply Forall_nil_2.
Defined.

(** After a write that succeeded, a second write under a title of the
    same file name is refused without [overwrite], the entry keeping the
    first content, and succeeds with [overwrite], the entry holding the
    second content and nothing of the first. *)
Theorem second_write_of_an_entry
    (dirpath title1 title2 content1 content2 : string)
    (overwrite1 overwrite2 : bool) (w w1 : world) :
  write_changelog_entry dirpath title1 (Some content1) overwrite1 w = (Ok tt, w1) ->
  content2 <> EmptyString ->
  entry_filename title2 = entry_filename title1 ->
  exists w2,
    write_changelog_entry dirpath title2 (Some content2) overwrite2 w1
    = (if overwrite2 then Ok tt
       else Raise (ClickException
                     ("Changelog entry "
                      +:+ PosixPath.basename (determine_filepath dirpath title1)
                      +:+ " already exists. Use '--overwrite' to replace it.")),
       w2)
    /\ files w2 !! determine_filepath dirpath title1
       = Some (File (if overwrite2 then content2 else content1)).
Proof.
  intros Hw1 Hc2 Hsame.
  apply (same_filename_same_path dirpath) in Hsame.
  assert (content1 <> EmptyString) as Hc1 by (by intros ->).
  assert (files w1 !! determine_filepath dirpath title1 = Some (File content1))
    as Hf1.
  { rewrite write_run in Hw1 by done. cbn zeta in Hw1.
    destruct (files w !! determine_filepath dirpath title1) as [[old|]|],
      overwrite1; try done.
    2,3: destruct (creation_error _ _); [done|].
    all: injection Hw1 as <-; cbn [files]; apply lookup_insert_eq. }
  pose proof (write_run dirpath title2 content2 overwrite2 w1 Hc2) as H2.
  cbn zeta in H2. rewrite Hsame, Hf1 in H2.
  destruct overwrite2; eexists; (split; [exact H2|]);
    cbn [files]; [apply lookup_insert_eq|exact Hf1].
Qed.

Lemma second_write_of_an_entry_witness :
  let w1 :=
    snd (write_changelog_entry "releases/unreleased" "new change" (Some "first")
           false world_with_releases) in
  exists w2,
    write_changelog_entry "releases/unreleased" "New Change" (Some "second")
      false w1
    = (Raise (ClickException
                "Changelog entry new-change.yml already exists. Use '--overwrite' to replace it."),
       w2)
    /\ files w2 !! "releases/unreleased/new-change.yml" = Some (File "first").
Proof.
  intros w1.
  apply (second_write_of_an_entry "releases/unreleased" "new change" "New Change"
           "first" "second" false false world_with_releases w1);
    [reflexivity | discriminate | reflexivity].
Defined.

Lemma write_creates_entry_witness :
  exists w',
    write_changelog_entry "releases/unreleased" "new change" (Some "text") false
      world_with_releases = (Ok tt, w')
    /\ files w'
       = <["releases/unreleased/new-change.yml" := File "text"]>
           (files world_with_releases)
    /\ stdout w'
       = stdout world_with_releases
         ++ ["Changelog entry 'new-change.yml' created" +:+ PyStr.LF].
Proof.
  apply (write_creates_entry "releases/unreleased" "new change" "text" false
           world_with_releases);
    [discriminate | reflexivity | reflexivity | dirs_above_by_lookup].
Defined.

Lemma write_overwrites_entry_witness :
  exists w',
    write_changelog_entry "releases/unreleased" "new change" (Some "text") true
      world_with_entry = (Ok tt, w')
    /\ files w' !! "releases/unreleased/new-change.yml" = Some (File "text").
Proof.
  apply (write_overwrites_entry "releases/unreleased" "new change" "text" "old"
           world_with_entry); done.
Defined.

(** ** The root of the repository and the entries directory *)

(** [root_path] returns a path exactly when the superproject query
    prints nothing but line feeds; the path is then what the top-level
    query prints, the line feeds at its ends removed. This holds for the
    class of changelog.py and for the class of repo.py. *)
Theorem root_path_is_toplevel
    (exec : option string -> list string -> string) (dirpath p : string) :
  (GitHandler.root_path exec = Ok p
   <-> only_chars PyStr.LF (exec None cmd_show_superproject) = true
       /\ p = PyStr.strip PyStr.LF (exec None cmd_show_toplevel))
  /\ (Repo.root_path exec dirpath = Ok p
      <-> only_chars PyStr.LF (exec (Some dirpath) cmd_show_superproject) = true
          /\ p = PyStr.strip PyStr.LF (exec (Some dirpath) cmd_show_toplevel)).
Proof.
  unfold GitHandler.root_path, GitHandler._get_submodule_root_path,
    GitHandler._get_root_path, Repo.root_path, Repo._get_submodule_root_path,
    Repo._get_root_path.
  rewrite !strip_empty.
  split.
  - destruct (only_chars PyStr.LF (exec None cmd_show_superproject)); split;
      try done; [by intros [= <-] | by intros [_ ->] | by intros [? _]].
  - destruct (only_chars PyStr.LF (exec (Some dirpath) cmd_show_superproject));
      split; try done; [by intros [= <-] | by intros [_ ->] | by intros [? _]].
Qed.

(** [find_file] returns [None] exactly when git prints nothing but line
    feeds; a path that it returns is not empty and is what git printed,
    the line feeds at its ends removed: the second [strip] changes
    nothing. *)
Theorem find_file_result
    (exec : option string -> list string -> string) (dirpath filename : string) :
  let out := exec (Some dirpath) ["git"; "ls-files"; filename] in
  match Repo.find_file exec dirpath filename with
  | None => only_chars PyStr.LF out = true
  | Some p =>
      only_chars PyStr.LF out = false
      /\ p = PyStr.strip PyStr.LF out
      /\ p <> EmptyString
      /\ trimmed PyStr.LF p = true
  end.
Proof.
  intros out. unfold Repo.find_file. fold out.
  rewrite strip_empty.
  destruct (only_chars PyStr.LF out) eqn:Ho; [done|].
  rewrite (strip_fixed _ _ (strip_trimmed PyStr.LF out)).
  repeat apply conj; try done.
  - intros He. rewrite <- strip_empty, He in Ho. done.
  - apply strip_trimmed.
Qed.

Lemma ends_with_sep_app a b :
  b <> EmptyString ->
  PosixPath.ends_with_sep (a +:+ b) = PosixPath.ends_with_sep b.
Proof.
  intros Hb. induction a as [|c a IH]; [done|].
  cbn [String.append PosixPath.ends_with_sep].
  destruct (a +:+ b) eqn:Hab; [by destruct a, b|done].
Qed.

(** The entries directory is releases/unreleased below the root that
    [root_path] returns. When that root is empty, as it is outside of a
    repository where git prints nothing, the directory is the relative
    path releases/unreleased. *)
Theorem entries_dirpath_below_root
    (exec : option string -> list string -> string) (root : string) :
  GitHandler.root_path exec = Ok root ->
  determine_changelog_entries_dirpath exec
  = Ok (if PyStr.is_empty root then "releases/unreleased"
        else if PosixPath.ends_with_sep root then root +:+ "releases/unreleased"
        else root +:+ "/releases/unreleased").
Proof.
  intros Hroot. unfold determine_changelog_entries_dirpath. rewrite Hroot.
  f_equal. unfold PosixPath.join3.
  destruct root as [|c r]; [done|].
  cbn [PyStr.is_empty]. unfold PosixPath.join at 2. cbn [PyStr.is_empty orb].
  destruct (PosixPath.ends_with_sep (String c r)) eqn:He.
  - unfold PosixPath.join.
    rewrite ends_with_sep_app by done.
    cbn -[String.append]. by rewrite !str_app_assoc.
  - unfold PosixPath.join.
    rewrite ends_with_sep_app by done.
    cbn -[String.append]. by rewrite !str_app_assoc.
Qed.

Lemma entries_dirpath_below_root_witness :
  determine_changelog_entries_dirpath exec_outside = Ok "releases/unreleased"
  /\ determine_changelog_entries_dirpath exec_in_project
     = Ok "/work/project/releases/unreleased".
Proof.
  split.
  - apply (entries_dirpath_below_root exec_outside EmptyString). reflexivity.
  - apply (entries_dirpath_below_root exec_in_project "/work/project").
    reflexivity.
Defined.

(** ** Directories above a path *)

Section AncestorFacts.
Local Open Scope nat_scope.

Lemma str_app_nil_r (a : string) : a +:+ EmptyString = a.
Proof. induction a as [|c a IH]; simpl; congruence. Qed.

Lemma mem_app c a b : PyStr.mem c (a +:+ b) = PyStr.mem c a || PyStr.mem c b.
Proof.
  induction a as [|x a IH]; simpl; [done|]. by rewrite IH, orb_assoc.
Qed.

Lemma ancestors_from_app pre a t :
  ancestors_from pre (a +:+ String "/" t)
  = ancestors_from pre a
    ++ (if negb (PyStr.is_empty (pre +:+ a))
           && negb (PosixPath.ends_with_sep (pre +:+ a))
        then [pre +:+ a] else [])
    ++ ancestors_from (pre +:+ a +:+ "/") t.
Proof.
  revert pre; induction a as [|c a IH]; intros pre.
  - cbn [String.append ancestors_from app]. rewrite str_app_nil_r.
    rewrite Ascii.eqb_refl. cbn [andb].
    by destruct (negb (PyStr.is_empty pre) && negb (PosixPath.ends_with_sep pre)).
  - cbn [String.append ancestors_from]. rewrite IH.
    rewrite !str_app_assoc. cbn [String.append].
    by destruct (Ascii.eqb c "/" && negb (PyStr.is_empty pre)
                 && negb (PosixPath.ends_with_sep pre)).
Qed.

Lemma ancestors_from_elem pre p h :
  h ∈ ancestors_from pre p ->
  exists a t, p = a +:+ String "/" t /\ h = pre +:+ a
              /\ PyStr.is_empty h = false.
Proof.
  revert pre; induction p as [|c r IH]; intros pre; [by intros ?%elem_of_nil|].
  cbn [ancestors_from].
  destruct (Ascii.eqb c "/") eqn:Hc; cbn [andb].
  - destruct (PyStr.is_empty pre) eqn:He; cbn [negb andb];
      [|destruct (PosixPath.ends_with_sep pre); cbn [negb]].
    2,3: try (intros [->|Hin]%elem_of_cons;
              [apply Ascii.eqb_eq in Hc as ->; exists EmptyString, r;
               by rewrite str_app_nil_r|]; revert Hin).
    all: intros (a & t & -> & -> & Hne)%IH; exists (String c a), t;
      by rewrite str_app_assoc in *.
  - intros (a & t & -> & -> & Hne)%IH. exists (String c a), t.
    by rewrite str_app_assoc in *.
Qed.

Lemma ancestors_from_longer pre p h :
  h ∈ ancestors_from pre p ->
  String.length pre <= String.length h < String.length pre + String.length p.
Proof.
  intros (a & t & -> & -> & _)%ancestors_from_elem.
  rewrite !app_length. cbn. lia.
Qed.

Lemma ancestors_shorter p h :
  h ∈ ancestors p -> String.length h < String.length p.
Proof. intros H%ancestors_from_longer. cbn in H. lia. Qed.

Lemma ancestors_not_self p : p ∉ ancestors p.
Proof. intros H%ancestors_shorter. lia. Qed.

(** The directories above the nearest directory above a path are the
    other directories above the path. *)
Lemma ancestors_last p l h : ancestors p = l ++ [h] -> ancestors h = l.
Proof.
  intros Hp.
  assert (h ∈ ancestors p) as Hin by (rewrite Hp; set_solver).
  apply ancestors_from_elem in Hin as (a & t & -> & Ha & _).
  cbn [String.append] in Ha. subst a.
  unfold ancestors in *. rewrite ancestors_from_app in Hp.
  cbn [String.append] in Hp.
  destruct (ancestors_from (h +:+ "/") t) as [|x X _] eqn:HX using rev_ind.
  - rewrite app_nil_r in Hp.
    destruct (negb (PyStr.is_empty h) && negb (PosixPath.ends_with_sep h)).
    + by apply app_inj_tail in Hp as [-> _].
    + rewrite app_nil_r in Hp.
      assert (h ∈ ancestors_from EmptyString h) as Hself
        by (rewrite Hp; set_solver).
      by apply ancestors_not_self in Hself.
  - rewrite !app_assoc in Hp. apply app_inj_tail in Hp as [_ ->].
    assert (h ∈ ancestors_from (h +:+ "/") t) as Hlong
      by (rewrite HX; set_solver).
    apply ancestors_from_longer in Hlong. rewrite app_length in Hlong.
    cbn in Hlong. lia.
Qed.

Lemma ancestors_no_nul p h :
  PyStr.mem "000" p = false -> h ∈ ancestors p -> PyStr.mem "000" h = false.
Proof.
  intros Hp (a & t & -> & -> & _)%ancestors_from_elem.
  rewrite mem_app in Hp. by apply orb_false_iff in Hp as [? _].
Qed.

Lemma ancestors_nonempty p h : h ∈ ancestors p -> h <> EmptyString.
Proof. intros (a & t & _ & _ & He)%ancestors_from_elem. by intros ->. Qed.

End AncestorFacts.

(** ** [os.mkdir] and [os.makedirs] *)

Ltac list_incl :=
  intros ?; rewrite ?elem_of_cons, ?elem_of_nil; tauto.

Lemma new_dirs_only_refl allowed fs : new_dirs_only allowed fs fs.
Proof. intros p. by left. Qed.

Lemma new_dirs_only_trans a1 a2 allowed fs fs1 fs2 :
  new_dirs_only a1 fs fs1 -> new_dirs_only a2 fs1 fs2 ->
  a1 ⊆ allowed -> a2 ⊆ allowed ->
  new_dirs_only allowed fs fs2.
Proof.
  intros H1 H2 Ha1 Ha2 p.
  destruct (H2 p) as [E2|(N1 & D2 & I2)], (H1 p) as [E1|(N0 & D1 & I1)].
  - left. congruence.
  - right. rewrite E2. auto.
  - right. rewrite <- E1. auto.
  - congruence.
Qed.

Lemma mkdir_grows name w :
  let res := mkdir name w in
  fs_calls (snd res) = fs_calls w /\ stdout (snd res) = stdout w
  /\ new_dirs_only [name] (files w) (files (snd res))
  /\ (fst res = Ok tt -> files (snd res) !! name = Some Dir).
Proof.
  unfold mkdir. destruct (files w !! name) as [n|] eqn:Hn; cbn.
  - repeat split; [apply new_dirs_only_refl | done].
  - destruct (creation_error (files w) name); cbn.
    + repeat split; [apply new_dirs_only_refl | done].
    + repeat split.
      * intros p. destruct (decide (p = name)) as [->|Hp].
        -- right. rewrite lookup_insert_eq. repeat split; [done|].
           apply elem_of_cons. by left.
        -- left. by rewrite lookup_insert_ne.
      * intros _. apply lookup_insert_eq.
Qed.

(** Whatever its outcome, [os.makedirs] opens and prints nothing and
    changes nothing but missing directories that it makes, the named
    one and those above it. *)
Lemma makedirs_from_grows heads name w :
  let res := makedirs_from heads name w in
  fs_calls (snd res) = fs_calls w /\ stdout (snd res) = stdout w
  /\ new_dirs_only (name :: heads) (files w) (files (snd res))
  /\ (fst res = Ok tt -> files (snd res) !! name = Some Dir).
Proof.
  revert name w; induction heads as [|head rest IH]; intros name w.
  - apply mkdir_grows.
  - cbn [makedirs_from]. unfold bind at 1, os_path_exists.
    unfold bind, try_except_else, ret, raise.
    destruct (bool_decide (is_Some (files w !! head))).
    + destruct (mkdir_grows name w) as (Hc & Ho & Hn & Hok).
      split; [done|]. split; [done|]. split; [|exact Hok].
      eapply new_dirs_only_trans;
        [apply new_dirs_only_refl | exact Hn | |]; list_incl.
    + destruct (IH head w) as (Hc1 & Ho1 & Hn1 & _).
      destruct (makedirs_from rest head w) as [[[]|e] w1]; cbn [fst snd] in *.
      * destruct (mkdir_grows name w1) as (Hc & Ho & Hn & Hok).
        split; [congruence|]. split; [congruence|]. split; [|exact Hok].
        eapply new_dirs_only_trans; [exact Hn1 | exact Hn | |]; list_incl.
      * assert (new_dirs_only (name :: head :: rest) (files w) (files w1)) as Hn0.
        { eapply new_dirs_only_trans;
            [exact Hn1 | apply new_dirs_only_refl | |]; list_incl. }
        destruct (mkdir_grows name w1) as (Hc & Ho & Hn & Hok).
        destruct e; cbn [fst snd]; try done.
        split; [congruence|]. split; [congruence|]. split; [|exact Hok].
        eapply new_dirs_only_trans; [exact Hn1 | exact Hn | |]; list_incl.
Qed.

Lemma dirs_above_insert fs name n p :
  name ∉ ancestors p -> dirs_above fs p -> dirs_above (<[name := n]> fs) p.
Proof.
  unfold dirs_above. intros Hnot Hd.
  apply Forall_forall. intros a Ha.
  rewrite lookup_insert_ne by (by intros ->).
  by apply (proj1 (Forall_forall _ _) Hd).
Qed.

Lemma mkdir_ok name w :
  files w !! name = None -> PyStr.mem "000" name = false ->
  name <> EmptyString -> dirs_above (files w) name ->
  mkdir name w
  = (Ok tt, World (<[name := Dir]> (files w)) (fs_calls w) (stdout w)).
Proof.
  intros Hn Hnul Hne Hd. unfold mkdir.
  by rewrite Hn, (creation_allowed _ _ Hnul Hne Hd).
Qed.

(** [os.makedirs] succeeds on a name that is missing when no file stands
    in its way: the directory and the directories above it are there
    afterwards. *)
Lemma makedirs_from_ok heads :
  forall name w,
    heads = reverse (ancestors name) ->
    files w !! name = None -> PyStr.mem "000" name = false ->
    name <> EmptyString -> no_file_above (files w) name ->
    exists w',
      makedirs_from heads name w = (Ok tt, w')
      /\ files w' !! name = Some Dir /\ dirs_above (files w') name.
Proof.
  induction heads as [|h rest IH]; intros name w Hheads Hn Hnul Hne Hfree.
  - assert (ancestors name = []) as Ha.
    { apply (f_equal reverse) in Hheads.
      by rewrite reverse_involutive in Hheads. }
    assert (dirs_above (files w) name) as Hd
      by (unfold dirs_above; rewrite Ha; constructor).
    cbn [makedirs_from]. rewrite (mkdir_ok _ _ Hn Hnul Hne Hd).
    eexists; split; [reflexivity|]. cbn [files].
    split; [apply lookup_insert_eq|].
    apply dirs_above_insert; [apply ancestors_not_self | done].
  - assert (ancestors name = reverse rest ++ [h]) as Ha.
    { apply (f_equal reverse) in Hheads.
      by rewrite reverse_involutive, reverse_cons in Hheads. }
    pose proof (ancestors_last _ _ _ Ha) as Hah.
    assert (h ∈ ancestors name) as Hin.
    { rewrite Ha. apply elem_of_app. right. by apply list_elem_of_singleton. }
    unfold no_file_above in Hfree. rewrite Ha in Hfree.
    apply Forall_app in Hfree as [Hrest Hh].
    apply Forall_inv in Hh.
    cbn [makedirs_from]. unfold bind at 1, os_path_exists.
    assert (exists w1,
              (run (if bool_decide (is_Some (files w !! h)) then ret tt
                    else try_except_else (makedirs_from rest h)
                           (fun e =>
                              match e with
                              | FileExistsError _ => ret tt
                              | _ => raise e
                              end) ret);
               mkdir name) w
              = mkdir name w1
              /\ files w1 !! name = None /\ dirs_above (files w1) name)
      as (w1 & -> & Hn1 & Hd1).
    { destruct Hh as [Hnone|[Hdir Hdh]].
      - rewrite bool_decide_eq_false_2 by (rewrite Hnone; by intros [? ?]).
        destruct (IH h w) as (w1 & Hrun & Hh1 & Hdh1).
        + by rewrite Hah, reverse_involutive.
        + done.
        + by apply (ancestors_no_nul name).
        + by apply (ancestors_nonempty name).
        + unfold no_file_above. by rewrite Hah.
        + exists w1. unfold bind, try_except_else. rewrite Hrun.
          split; [done|].
          destruct (makedirs_from_grows rest h w) as (_ & _ & Hgrow & _).
          rewrite Hrun in Hgrow. cbn [snd] in Hgrow. split.
          * destruct (Hgrow name) as [->|(_ & _ & Hbad)]; [done|].
            exfalso. apply (ancestors_not_self name).
            rewrite Ha. apply elem_of_cons in Hbad as [->|Hbad].
            -- apply elem_of_app. right. by apply list_elem_of_singleton.
            -- apply elem_of_app. left. by apply elem_of_reverse.
          * unfold dirs_above in *. rewrite Ha, Hah in *.
            apply Forall_app. split; [done|]. by constructor.
      - rewrite bool_decide_eq_true_2 by (rewrite Hdir; eauto).
        exists w. unfold bind, ret. split; [done|]. split; [done|].
        unfold dirs_above in *. rewrite Ha, Hah in *.
        apply Forall_app. split; [done|]. by constructor. }
    rewrite (mkdir_ok _ _ Hn1 Hnul Hne Hd1).
    eexists; split; [reflexivity|]. cbn [files].
    split; [apply lookup_insert_eq|].
    apply dirs_above_insert; [apply ancestors_not_self | done].
Qed.

Lemma join_nonempty a b : b <> EmptyString -> PosixPath.join a b <> EmptyString.
Proof.
  intros Hb. destruct b as [|c b]; [done|].
  intros H. apply (f_equal String.length) in H. revert H.
  unfold PosixPath.join.
  assert (String.length
            (if PyStr.is_empty a || PosixPath.ends_with_sep a
             then a +:+ String c b
             else a +:+ "/" +:+ String c b) <> 0%nat) as Hlen.
  { destruct (_ || _); rewrite ?app_length; cbn; lia. }
  destruct c as [[] [] [] [] [] [] [] []]; try done; cbn; lia.
Qed.

Lemma entries_dirpath_nonempty exec d :
  determine_changelog_entries_dirpath exec = Ok d -> d <> EmptyString.
Proof.
  unfold determine_changelog_entries_dirpath.
  destruct (GitHandler.root_path exec) as [root|]; [|done].
  intros Heq.
  assert (d = PosixPath.join (PosixPath.join root "releases") "unreleased")
    as -> by (unfold PosixPath.join3 in Heq; congruence).
  by apply join_nonempty.
Qed.

(** ** The check of the entries directory and the command *)

Section CommandFacts.
Variable exec : option string -> list string -> string.
Variable confirm : string -> bool.
Variable emit_str : string -> string.
Variable edit : string -> option string.

(** The run of [check_changelog_entries_dir] once the path is known. *)
Lemma check_run d w :
  determine_changelog_entries_dirpath exec = Ok d ->
  check_changelog_entries_dir exec confirm w
  = match files w !! d with
    | Some _ => (Ok d, w)
    | None =>
        let told :=
          World (files w) (fs_calls w)
                (stdout w
                 ++ ["Error: Changelog entries directory does not exist."
                     +:+ PyStr.LF]) in
        if confirm "Do you want to create it?" then
          match makedirs d told with
          | (Ok _, w1) =>
              (Ok d,
               World (files w1) (fs_calls w1)
                     (stdout w1
                      ++ ["New directory " +:+ d +:+ " created" +:+ PyStr.LF]))
          | (Raise ex, w1) =>
              (Raise (match os_error_str ex with
                      | Some msg =>
                          ClickException ("Unable to create directory. " +:+ msg)
                      | None => ex
                      end), w1)
          end
        else
          (Raise (ClickException
                    "Changelog entries directory is needed to continue."),
           told)
    end.
Proof.
  intros Hd. unfold check_changelog_entries_dir. rewrite Hd.
  unfold bind at 1, os_path_exists.
  destruct (files w !! d) as [n|] eqn:Hn.
  - rewrite bool_decide_eq_true_2 by eauto. done.
  - rewrite bool_decide_eq_false_2 by (intros [? ?]; done).
    unfold bind at 1, echo at 1. cbn zeta.
    destruct (confirm "Do you want to create it?"); cbn [negb]; [|done].
    unfold bind, try_except_else, ret, raise, echo.
    destruct (makedirs d _) as [[[]|ex] w1]; [by rewrite !str_app_assoc|].
    by destruct (os_error_str ex).
Qed.

Lemma check_raises e w :
  determine_changelog_entries_dirpath exec = Raise e ->
  check_changelog_entries_dir exec confirm w = (Raise e, w).
Proof. intros He. unfold check_changelog_entries_dir. by rewrite He. Qed.

(** Whatever its outcome, the check opens and writes no file and changes
    nothing but missing directories that it makes, the entries directory
    and those above it. *)
Lemma check_grows d w :
  determine_changelog_entries_dirpath exec = Ok d ->
  let res := check_changelog_entries_dir exec confirm w in
  fs_calls (snd res) = fs_calls w
  /\ new_dirs_only (d :: ancestors d) (files w) (files (snd res))
  /\ (forall r, fst res = Ok r -> r = d /\ is_Some (files (snd res) !! d)).
Proof.
  intros Hd res. subst res. rewrite (check_run d w Hd).
  destruct (files w !! d) as [n|] eqn:Hn.
  - cbn [fst snd]. split; [done|]. split; [apply new_dirs_only_refl|].
    intros r [= <-]. eauto.
  - cbn zeta. destruct (confirm "Do you want to create it?").
    2: { cbn [fst snd files fs_calls]. split; [done|].
         split; [apply new_dirs_only_refl | done]. }
    unfold makedirs.
    pose proof (makedirs_from_grows (reverse (ancestors d)) d
                  (World (files w) (fs_calls w)
                     (stdout w
                      ++ ["Error: Changelog entries directory does not exist."
                          +:+ PyStr.LF]))) as Hg.
    cbn zeta in Hg. cbn [files fs_calls stdout] in Hg.
    destruct Hg as (Hc & _ & Hnew & Hok).
    assert (new_dirs_only (d :: ancestors d) (files w)
              (files (snd (makedirs_from (reverse (ancestors d)) d
                 (World (files w) (fs_calls w)
                    (stdout w
                     ++ ["Error: Changelog entries directory does not exist."
                         +:+ PyStr.LF])))))) as Hnew'.
    { intros p. destruct (Hnew p) as [?|(? & ? & Hin)]; [by left|right].
      repeat split; try done.
      apply elem_of_cons in Hin as [->|Hin]; apply elem_of_cons; [by left|right].
      by apply elem_of_reverse. }
    destruct (makedirs_from _ _ _) as [[[]|ex] w1]; cbn [fst snd files fs_calls] in *.
    + split; [done|]. split; [done|]. intros r [= <-]. split; [done|].
      rewrite Hok by done. eauto.
    + split; [done|]. split; [done|]. done.
Qed.

(** When the entries directory is missing and the user declines to
    create it, the check raises "Changelog entries directory is needed
    to continue." and no file or directory has been created. *)
Theorem check_dir_declined (d : string) (w : world) :
  determine_changelog_entries_dirpath exec = Ok d ->
  files w !! d = None ->
  confirm "Do you want to create it?" = false ->
  exists w',
    check_changelog_entries_dir exec confirm w
    = (Raise (ClickException
                "Changelog entries directory is needed to continue."), w')
    /\ files w' = files w
    /\ fs_calls w' = fs_calls w.
Proof.
  intros Hd Hn Hc. rewrite (check_run d w Hd), Hn. cbn zeta. rewrite Hc.
  by eexists.
Qed.

(** When the check returns, it returns the path of the entries
    directory and that path exists. No file was opened or written, and
    nothing changed but directories that were missing and have been
    made, the entries directory and those above it; a directory that was
    there already has left the world unchanged. *)
Theorem check_dir_ensures (d : string) (w w' : world) :
  check_changelog_entries_dir exec confirm w = (Ok d, w') ->
  determine_changelog_entries_dirpath exec = Ok d
  /\ is_Some (files w' !! d)
  /\ new_dirs_only (d :: ancestors d) (files w) (files w')
  /\ fs_calls w' = fs_calls w
  /\ (is_Some (files w !! d) -> w' = w).
Proof.
  intros Hrun.
  destruct (determine_changelog_entries_dirpath exec) as [d0|e] eqn:Hd.
  2: { by rewrite (check_raises e w Hd) in Hrun. }
  destruct (check_grows d0 w Hd) as (Hc & Hnew & Hok).
  rewrite Hrun in Hc, Hnew, Hok. cbn [fst snd] in *.
  destruct (Hok d eq_refl) as [-> Hex].
  repeat split; try done.
  intros [n Hn]. rewrite (check_run d0 w Hd), Hn in Hrun. by injection Hrun.
Qed.

(** When the entries directory is missing, no file stands in its way and
    the user agrees, the check makes the directory and the missing
    directories above it, reports it and returns its path. *)
Theorem check_dir_creates (d : string) (w : world) :
  determine_changelog_entries_dirpath exec = Ok d ->
  files w !! d = None ->
  PyStr.mem "000" d = false ->
  no_file_above (files w) d ->
  confirm "Do you want to create it?" = true ->
  exists w',
    check_changelog_entries_dir exec confirm w = (Ok d, w')
    /\ files w' !! d = Some Dir
    /\ dirs_above (files w') d
    /\ new_dirs_only (d :: ancestors d) (files w) (files w')
    /\ stdout w'
       = stdout w
         ++ ["Error: Changelog entries directory does not exist." +:+ PyStr.LF;
             "New directory " +:+ d +:+ " created" +:+ PyStr.LF].
Proof.
  intros Hd Hn Hnul Hfree Hc.
  destruct (check_grows d w Hd) as (_ & Hnew & _).
  rewrite (check_run d w Hd), Hn in *. cbn zeta in *. rewrite Hc in *.
  unfold makedirs in *.
  destruct (makedirs_from_ok (reverse (ancestors d)) d
              (World (files w) (fs_calls w)
                 (stdout w
                  ++ ["Error: Changelog entries directory does not exist."
                      +:+ PyStr.LF])))
    as (w1 & Hrun & Hdir & Habove);
    [done | done | done | by apply (entries_dirpath_nonempty exec) | done |].
  destruct (makedirs_from_grows (reverse (ancestors d)) d
              (World (files w) (fs_calls w)
                 (stdout w
                  ++ ["Error: Changelog entries directory does not exist."
                      +:+ PyStr.LF]))) as (_ & Hout & _).
  rewrite Hrun in *. cbn [snd files stdout] in *.
  eexists; split; [reflexivity|]. cbn [files stdout].
  repeat split; try done. by rewrite Hout, <- app_assoc.
Qed.

(** The run of [changelog], step by step. *)
Lemma changelog_run title category dry_run overwrite editor w :
  changelog exec confirm emit_str edit title category dry_run overwrite editor w
  = match check_changelog_entries_dir exec confirm
            (World (files w) (fs_calls w) (stdout w ++ [PyStr.LF])) with
    | (Raise e, w1) => (Raise e, w1)
    | (Ok dirpath, w1) =>
        let content :=
          create_changelog_entry_content emit_str edit title category
            None None editor in
        let w2 := World (files w1) (fs_calls w1) (stdout w1 ++ [PyStr.LF]) in
        if dry_run then
          (Ok tt,
           World (files w2) (fs_calls w2)
                 (stdout w2 ++ [default EmptyString content +:+ PyStr.LF]))
        else write_changelog_entry dirpath title content overwrite w2
    end.
Proof.
  unfold changelog, bind, click_echo, echo. cbn [default String.append].
  destruct (check_changelog_entries_dir exec confirm _) as [[d|e] w1]; [|done].
  by destruct dry_run.
Qed.

(** With [dry_run], the command opens and writes no file: the log of
    these calls is as it was, and nothing changed but directories that
    were missing and have been made, the entries directory and those
    above it. When the path of the entries directory is not found,
    nothing changed at all. *)
Theorem changelog_dry_run_writes_nothing
    (title category : string) (overwrite editor : bool) (w : world) :
  let w' := snd (changelog exec confirm emit_str edit title category
                   true overwrite editor w) in
  fs_calls w' = fs_calls w
  /\ match determine_changelog_entries_dirpath exec with
     | Ok d => new_dirs_only (d :: ancestors d) (files w) (files w')
     | Raise _ => files w' = files w
     end.
Proof.
  intros w'. subst w'. rewrite changelog_run.
  destruct (determine_changelog_entries_dirpath exec) as [d|e] eqn:Hd.
  - destruct (check_grows d (World (files w) (fs_calls w) (stdout w ++ [PyStr.LF]))
                Hd) as (Hc & Hnew & _).
    cbn [files fs_calls] in *.
    by destruct (check_changelog_entries_dir exec confirm _) as [[d1|e] w1].
  - by rewrite (check_raises e _ Hd).
Qed.

(** Without the editor, in a checkout that has its entries directory,
    when the path of the entry does not exist, holds no NUL character
    and lies below directories that are all there, the command succeeds
    and the entry holds the document of the title and the category, its
    other fields null. *)
Theorem changelog_writes_document
    (d title category : string) (overwrite : bool) (w : world) :
  determine_changelog_entries_dirpath exec = Ok d ->
  is_Some (files w !! d) ->
  files w !! determine_filepath d title = None ->
  PyStr.mem "000" (determine_filepath d title) = false ->
  dirs_above (files w) (determine_filepath d title) ->
  exists w',
    changelog exec confirm emit_str edit title category false overwrite false w
    = (Ok tt, w')
    /\ files w' !! determine_filepath d title
       = Some (File ("---" +:+ PyStr.LF
                     +:+ "title: " +:+ emit_str title +:+ PyStr.LF
                     +:+ "category: " +:+ emit_str category +:+ PyStr.LF
                     +:+ "author: null" +:+ PyStr.LF
                     +:+ "pull_request: null" +:+ PyStr.LF
                     +:+ "notes: null" +:+ PyStr.LF))
    /\ forall p, p <> determine_filepath d title -> files w' !! p = files w !! p.
Proof.
  intros Hd [n Hn] Hfree Hnul Hdirs.
  rewrite changelog_run, (check_run d _ Hd). cbn [files]. rewrite Hn.
  cbn zeta.
  set (content := create_changelog_entry_content _ _ _ _ _ _ _).
  assert (content
          = Some ("---" +:+ PyStr.LF
                  +:+ "title: " +:+ emit_str title +:+ PyStr.LF
                  +:+ "category: " +:+ emit_str category +:+ PyStr.LF
                  +:+ "author: null" +:+ PyStr.LF
                  +:+ "pull_request: null" +:+ PyStr.LF
                  +:+ "notes: null" +:+ PyStr.LF)) as ->.
  { unfold content, create_changelog_entry_content, yaml_dump.
    cbn -[String.append]. by rewrite !str_app_assoc. }
  rewrite write_run by done. cbn zeta. cbn [files]. rewrite Hfree.
  rewrite (creation_allowed _ _ Hnul (determine_filepath_nonempty _ _) Hdirs).
  eexists; split; [reflexivity|]. cbn [files].
  split; [apply lookup_insert_eq|]. intros p Hp. by rewrite lookup_insert_ne.
Qed.

(** The directory is created before the content is looked at: when the
    entries directory is missing, no file stands in its way, the user
    agrees to create it and the editor returns nothing, the command
    raises "Aborting due to empty entry content" and the new directory
    is there, below the directories that were made with it. *)
Theorem changelog_abort_keeps_new_directory
    (d title category : string) (overwrite : bool) (w : world) :
  determine_changelog_entries_dirpath exec = Ok d ->
  files w !! d = None ->
  PyStr.mem "000" d = false ->
  no_file_above (files w) d ->
  confirm "Do you want to create it?" = true ->
  create_changelog_entry_content emit_str edit title category None None true
  = None ->
  exists w',
    changelog exec confirm emit_str edit title category false overwrite true w
    = (Raise (ClickException "Aborting due to empty entry content"), w')
    /\ files w' !! d = Some Dir
    /\ dirs_above (files w') d
    /\ new_dirs_only (d :: ancestors d) (files w) (files w')
    /\ fs_calls w' = fs_calls w.
Proof.
  intros Hd Hn Hnul Hfree Hc Hedit.
  set (w0 := World (files w) (fs_calls w) (stdout w ++ [PyStr.LF])).
  destruct (check_grows d w0 Hd) as (Hcalls & Hnew & _).
  assert (exists w1,
            check_changelog_entries_dir exec confirm w0 = (Ok d, w1)
            /\ files w1 !! d = Some Dir /\ dirs_above (files w1) d)
    as (w1 & Hrun & Hdir & Habove).
  { rewrite (check_run d w0 Hd). cbn [files w0]. rewrite Hn. cbn zeta.
    rewrite Hc. unfold makedirs.
    edestruct (makedirs_from_ok (reverse (ancestors d)) d) as (w1 & -> & ? & ?);
      [reflexivity | exact Hn | exact Hnul
      | by apply (entries_dirpath_nonempty exec) | exact Hfree |].
    by eexists. }
  rewrite changelog_run. fold w0. rewrite Hrun in *. cbn zeta.
  rewrite Hedit. cbn [snd files fs_calls w0] in *.
  by eexists.
Qed.

(** In a checkout that is a submodule, where the superproject query
    prints a path, the command raises [UnboundLocalError] whatever its
    arguments, before any prompt; no file is touched. *)
Theorem changelog_fails_in_submodule
    (title category : string) (dry_run overwrite editor : bool) (w : world) :
  GitHandler._get_submodule_root_path exec <> EmptyString ->
  exists w',
    changelog exec confirm emit_str edit title category dry_run overwrite editor w
    = (Raise (UnboundLocalError "basepath"), w')
    /\ files w' = files w
    /\ fs_calls w' = fs_calls w
    /\ stdout w' = stdout w ++ [PyStr.LF].
Proof.
  intros Hsub.
  assert (determine_changelog_entries_dirpath exec
          = Raise (UnboundLocalError "basepath")) as Hd.
  { unfold determine_changelog_entries_dirpath.
    by rewrite (root_path_unbound exec Hsub). }
  rewrite changelog_run, (check_raises _ _ Hd).
  by eexists.
Qed.

End CommandFacts.

Lemma check_dir_declined_witness :
  exists w',
    check_changelog_entries_dir exec_in_project (fun _ => false) empty_world
    = (Raise (ClickException
                "Changelog entries directory is needed to continue."), w')
    /\ files w' = files empty_world
    /\ fs_calls w' = fs_calls empty_world.
Proof.
  apply (check_dir_declined exec_in_project (fun _ => false)
           "/work/project/releases/unreleased" empty_world); reflexivity.
Defined.

Lemma check_dir_ensures_witness :
  let w' := snd (check_changelog_entries_dir exec_in_project (fun _ => true)
                   world_with_checkout) in
  determine_changelog_entries_dirpath exec_in_project
  = Ok "/work/project/releases/unreleased"
  /\ is_Some (files w' !! "/work/project/releases/unreleased")
  /\ new_dirs_only
       ("/work/project/releases/unreleased"
        :: ancestors "/work/project/releases/unreleased")
       (files world_with_checkout) (files w')
  /\ fs_calls w' = fs_calls world_with_checkout
  /\ (is_Some (files world_with_checkout !! "/work/project/releases/unreleased")
      -> w' = world_with_checkout).
Proof.
  apply (check_dir_ensures exec_in_project (fun _ => true)
           "/work/project/releases/unreleased" world_with_checkout).
  reflexivity.
Defined.

Lemma check_dir_creates_witness :
  exists w',
    check_changelog_entries_dir exec_in_project (fun _ => true)
      world_with_checkout
    = (Ok "/work/project/releases/unreleased", w')
    /\ files w' !! "/work/project/releases/unreleased" = Some Dir
    /\ dirs_above (files w') "/work/project/releases/unreleased"
    /\ new_dirs_only
         ("/work/project/releases/unreleased"
          :: ancestors "/work/project/releases/unreleased")
         (files world_with_checkout) (files w')
    /\ stdout w'
       = stdout world_with_checkout
         ++ ["Error: Changelog entries directory does not exist." +:+ PyStr.LF;
             "New directory " +:+ "/work/project/releases/unreleased"
             +:+ " created" +:+ PyStr.LF].
Proof.
  apply (check_dir_creates exec_in_project (fun _ => true)
           "/work/project/releases/unreleased" world_with_checkout);
    [reflexivity | reflexivity | reflexivity | no_file_above_by_lookup
    | reflexivity].
Defined.

Lemma changelog_writes_document_witness :
  exists w',
    changelog exec_in_project (fun _ => false) (fun s => s) (fun _ => None)
      "new change" "added" false false false world_with_dir
    = (Ok tt, w')
    /\ files w' !! "/work/project/releases/unreleased/new-change.yml"
       = Some (File ("---" +:+ PyStr.LF
                     +:+ "title: new change" +:+ PyStr.LF
                     +:+ "category: added" +:+ PyStr.LF
                     +:+ "author: null" +:+ PyStr.LF
                     +:+ "pull_request: null" +:+ PyStr.LF
                     +:+ "notes: null" +:+ PyStr.LF))
    /\ forall p, p <> "/work/project/releases/unreleased/new-change.yml" ->
                 files w' !! p = files world_with_dir !! p.
Proof.
  apply (changelog_writes_document exec_in_project (fun _ => false)
           (fun s => s) (fun _ => None)
           "/work/project/releases/unreleased" "new change" "added" false
           world_with_dir).
  - reflexivity.
  - by eexists.
  - reflexivity.
  - reflexivity.
  - dirs_above_by_lookup.
Defined.

Lemma changelog_abort_keeps_new_directory_witness :
  exists w',
    changelog exec_in_project (fun _ => true) (fun s => s) (fun _ => None)
      "new change" "added" false false true world_with_checkout
    = (Raise (ClickException "Aborting due to empty entry content"), w')
    /\ files w' !! "/work/project/releases/unreleased" = Some Dir
    /\ dirs_above (files w') "/work/project/releases/unreleased"
    /\ new_dirs_only
         ("/work/project/releases/unreleased"
          :: ancestors "/work/project/releases/unreleased")
         (files world_with_checkout) (files w')
    /\ fs_calls w' = fs_calls world_with_checkout.
Proof.
  apply (changelog_abort_keeps_new_directory exec_in_project (fun _ => true)
           (fun s => s) (fun _ => None)
           "/work/project/releases/unreleased" "new change" "added" false
           world_with_checkout);
    [reflexivity | reflexivity | reflexivity | no_file_above_by_lookup
    | reflexivity | reflexivity].
Defined.

Lemma changelog_fails_in_submodule_witness :
  exists w',
    changelog exec_in_submodule (fun _ => true) (fun s => s) (fun s => Some s)
      "new change" "added" false false true empty_world
    = (Raise (UnboundLocalError "basepath"), w')
    /\ files w' = files empty_world
    /\ fs_calls w' = fs_calls empty_world
    /\ stdout w' = stdout empty_world ++ [PyStr.LF].
Proof.
  apply (changelog_fails_in_submodule exec_in_submodule (fun _ => true)
           (fun s => s) (fun s => Some s)
           "new change" "added" false false true empty_world).
  discriminate.
Defined.
